(** * obspy-runtests: the report upload step

    A shallow embedding of [upload_json_report] from
    [obspy/scripts/runtests.py]: the consent prompt, the removal of
    repeated warnings from the JSON report, the HTTP POST and the
    interpretation of the server's answer.

    Python values are modelled as follows.
    - [str] is [string]; the model covers ASCII text, on which
    [str.lower] maps A..Z to a..z and leaves every other character
    alone.
    - A [dict] is an association list in insertion order whose keys are
    pairwise different; [dict_set] and [py_dict] keep that shape.
    - The scalars of a warning record are [None], [bool], [int] and
    [str]; floats are left out.  Python compares [True] and [1] (and
    [False] and [0]) equal, and so does [scalar_eqb].
    - A [set] is the list of its members in insertion order, without
    repetition; the order in which Python iterates over it is not fixed
    by the language and is a parameter ([set_order]). *)

From Stdlib Require Import String Ascii List ZArith Bool Lia.
From Stdlib Require Import Permutation SetoidList SetoidPermutation.
From Stdlib Require Import DecimalString.
Import ListNotations.

Local Open Scope string_scope.
Local Open Scope list_scope.

(* ================================================================== *)
(** ** Strings *)

Module PyStr.

(** [c.lower()] on a single ASCII character. *)
Definition lower_char (c : ascii) : ascii :=
  let n := nat_of_ascii c in
  if (65 <=? n)%nat && (n <=? 90)%nat then ascii_of_nat (n + 32) else c.

(** [s.lower()]. *)
Fixpoint lower (s : string) : string :=
  match s with
  | EmptyString => EmptyString
  | String c s' => String (lower_char c) (lower s')
  end.

(** [hay.startswith(needle)]. *)
Fixpoint starts_with (needle hay : string) : bool :=
  match needle, hay with
  | EmptyString, _ => true
  | String _ _, EmptyString => false
  | String a needle', String b hay' =>
      Ascii.eqb a b && starts_with needle' hay'
  end.

(** [needle in hay]. *)
Fixpoint contains (needle hay : string) : bool :=
  starts_with needle hay ||
  match hay with
  | EmptyString => false
  | String _ hay' => contains needle hay'
  end.

(** The mathematical reading of [needle in hay]. *)
Definition substring_of (needle hay : string) : Prop :=
  exists pre post, hay = (pre ++ needle ++ post)%string.

(** [str(z)] for an [int]. *)
Definition str_of_int (z : Z) : string :=
  NilZero.string_of_int (Z.to_int z).

Definition newline : string := String (ascii_of_nat 10) EmptyString.

End PyStr.

(* ================================================================== *)
(** ** Values, dictionaries and sets *)

Module Py.

Inductive scalar : Type :=
  | SNone
  | SBool (b : bool)
  | SInt (z : Z)
  | SStr (s : string).

(** [bool] is a subclass of [int]: [True == 1] and [False == 0], with
    equal hashes.  [as_number] sends a scalar to the representative of
    its equality class. *)
Definition as_number (v : scalar) : scalar :=
  match v with
  | SBool true => SInt 1
  | SBool false => SInt 0
  | _ => v
  end.

(** [a == b] on scalars. *)
Definition scalar_eqb (a b : scalar) : bool :=
  match as_number a, as_number b with
  | SNone, SNone => true
  | SInt x, SInt y => Z.eqb x y
  | SStr s, SStr t => String.eqb s t
  | _, _ => false
  end.

Inductive pyval : Type :=
  | PScalar (v : scalar)
  | PList (l : list pyval)
  | PDict (d : list (string * pyval)).

Definition PStr (s : string) : pyval := PScalar (SStr s).
Definition PNone : pyval := PScalar SNone.

Inductive exn : Type :=
  | TypeError
  | KeyError
  | AttributeError
  | EOFError
  | JSONDecodeError
  | ConnectionError.

Inductive result (A : Type) : Type :=
  | Ok (a : A)
  | Raise (e : exn).
Arguments Ok {A} a.
Arguments Raise {A} e.

Definition rbind {A B} (r : result A) (f : A -> result B) : result B :=
  match r with
  | Ok a => f a
  | Raise e => Raise e
  end.

(** Evaluate [f] on the elements from left to right, stopping at the
    first exception. *)
Fixpoint rmap {A B} (f : A -> result B) (l : list A) : result (list B) :=
  match l with
  | [] => Ok []
  | x :: l' =>
      rbind (f x) (fun y => rbind (rmap f l') (fun ys => Ok (y :: ys)))
  end.

Section Dict.
Context {V : Type}.

Definition dict : Type := list (string * V).

Definition keys (d : dict) : list string := map fst d.

(** [d.get(k)]. *)
Fixpoint dict_get (k : string) (d : dict) : option V :=
    match d with
    | [] => None
    | (k', v) :: d' => if String.eqb k' k then Some v else dict_get k d'
    end.

(** [d[k] = v]: an existing key keeps its place, a new key goes to
    the end. *)
Fixpoint dict_set (k : string) (v : V) (d : dict) : dict :=
    match d with
    | [] => [(k, v)]
    | (k', v') :: d' =>
        if String.eqb k' k then (k', v) :: d'
        else (k', v') :: dict_set k v d'
    end.

(** [dict(t)] for a sequence [t] of key/value pairs. *)
Definition py_dict (t : list (string * V)) : dict :=
    fold_left (fun d kv => dict_set (fst kv) (snd kv) d) t [].

(** The association lists that stand for a Python [dict]. *)
Definition wf_dict (d : dict) : Prop := NoDup (keys d).

End Dict.
Arguments dict V : clear implicits.

(** A warning record and the tuple of its items. *)
Definition record : Type := dict scalar.
Definition item_tuple : Type := list (string * scalar).

Definition item_eqb (a b : string * scalar) : bool :=
  String.eqb (fst a) (fst b) && scalar_eqb (snd a) (snd b).

(** [s == t] on tuples of items: same length, equal componentwise. *)
Fixpoint tuple_eqb (s t : item_tuple) : bool :=
  match s, t with
  | [], [] => true
  | a :: s', b :: t' => item_eqb a b && tuple_eqb s' t'
  | _, _ => false
  end.

(** An item with its value replaced by the representative. *)
Definition canon_item (kv : string * scalar) : string * scalar :=
  (fst kv, as_number (snd kv)).

(** [s == t] as a relation. *)
Definition teq (s t : item_tuple) : Prop := tuple_eqb s t = true.

(** [d1 == d2] on records: same number of keys, and every key of [d1]
    is a key of [d2] with an equal value; the order of the keys plays
    no part. *)
Definition dict_eqb (d1 d2 : record) : bool :=
  Nat.eqb (length d1) (length d2) &&
  forallb (fun kv =>
             match dict_get (fst kv) d2 with
             | Some v => scalar_eqb (snd kv) v
             | None => false
             end) d1.

(** [s.add(x)] on the insertion-ordered members of a set: a member
    equal to [x] stays, and [x] is dropped. *)
Fixpoint set_add (x : item_tuple) (s : list item_tuple) : list item_tuple :=
  match s with
  | [] => [x]
  | y :: s' => if tuple_eqb y x then s else y :: set_add x s'
  end.

(** [{x for x in l}]. *)
Definition py_set (l : list item_tuple) : list item_tuple :=
  fold_left (fun s x => set_add x s) l [].

(** The order in which a set is iterated: some rearrangement of its
    members. *)
Record set_order : Type := {
  iter_order : list item_tuple -> list item_tuple;
  iter_order_perm : forall s, Permutation (iter_order s) s
  }.

(** One possible order: the order of insertion. *)
Definition insertion_order : set_order :=
  {| iter_order := fun s => s;
     iter_order_perm := fun s => Permutation_refl s |}.

(** Another one: most recent member first. *)
Definition reverse_order : set_order :=
  {| iter_order := fun s => rev s;
     iter_order_perm := fun s => Permutation_sym (Permutation_rev s) |}.

End Py.


(* ================================================================== *)
(** ** The program *)

Module Runtests.
Import PyStr Py.

(** URL to upload json report. *)
Definition REPORT_URL : string := "tests.obspy.org".

(** What the program looks at in the object [requests.post] returns:
    [status_code], [reason], and the value of [response.json()], which
    is missing when the body does not parse. *)
Record response : Type := {
  status_code : Z;
  reason : string;
  json : option pyval
}.

(** What the program does to the outside world. *)
Inductive event : Type :=
| Input (prompt : string)
| Post (url : string) (json_body : pyval)
| Print (text : string).

(** The state a call runs in: the lines waiting on standard input, the
    object the caller passed as [data] ([None] when it passed none),
    and the events so far, oldest first. *)
Record world : Type := {
  stdin : list string;
  data : pyval;
  trace : list event
}.

Definition M (A : Type) : Type := world -> result A * world.

Definition ret {A} (a : A) : M A := fun w => (Ok a, w).

Definition bind {A B} (m : M A) (f : A -> M B) : M B :=
  fun w =>
    match m w with
    | (Ok a, w') => f a w'
    | (Raise e, w') => (Raise e, w')
    end.

Definition lift {A} (r : result A) : M A := fun w => (r, w).

Notation "x <- m ;; k" := (bind m (fun x => k))
  (at level 61, m at next level, right associativity).
Notation "m ;; k" := (bind m (fun _ => k))
  (at level 61, right associativity).

Definition emit (e : event) : M unit :=
  fun w =>
    (Ok tt, {| stdin := stdin w; data := data w; trace := trace w ++ [e] |}).

(** [input(prompt)]: write the prompt, read one line. *)
Definition input (prompt : string) : M string :=
  emit (Input prompt) ;;
  fun w =>
    match stdin w with
    | [] => (Raise EOFError, w)
    | line :: rest =>
        (Ok line, {| stdin := rest; data := data w; trace := trace w |})
    end.

(** [print(text)]. *)
Definition print (text : string) : M unit := emit (Print text).

(** The variable [data]. *)
Definition get_data : M pyval := fun w => (Ok (data w), w).

(** [data[k]]. *)
Definition getitem (k : string) : M pyval :=
  d <- get_data ;;
  match d with
  | PDict kvs =>
      match dict_get k kvs with
      | Some v => ret v
      | None => lift (Raise KeyError)
      end
  | _ => lift (Raise TypeError)
  end.

(** [data[k] = v], on the caller's object. *)
Definition setitem (k : string) (v : pyval) : M unit :=
  fun w =>
    match data w with
    | PDict kvs =>
        (Ok tt, {| stdin := stdin w;
                   data := PDict (dict_set k v kvs);
                   trace := trace w |})
    | _ => (Raise TypeError, w)
    end.

(** [for d in v]: a list gives its elements, a dict its keys, a string
    its characters; nothing else used here can be iterated. *)
Definition iterate (v : pyval) : result (list pyval) :=
  match v with
  | PList l => Ok l
  | PDict kvs => Ok (map (fun kv => PStr (fst kv)) kvs)
  | PScalar (SStr s) =>
      Ok (map (fun c => PStr (String c EmptyString)) (list_ascii_of_string s))
  | PScalar _ => Raise TypeError
  end.

(** [tuple(d.items())] as a member of a set: [d] must be a dict, and
    the tuple must be hashable, so every value must be. *)
Definition hashable_items (d : pyval) : result item_tuple :=
  match d with
  | PDict kvs =>
      rmap (fun kv =>
              match snd kv with
              | PScalar v => Ok (fst kv, v)
              | _ => Raise TypeError
              end) kvs
  | _ => Raise AttributeError
  end.

(** A record as a Python value. *)
Definition record_value (r : record) : pyval :=
  PDict (map (fun kv => (fst kv, PScalar (snd kv))) r).

(** [tuple(d.items())] on a record. *)
Definition items (d : record) : item_tuple := d.

(** [response.json()]. *)
Definition response_json (r : response) : result pyval :=
  match json r with
  | Some v => Ok v
  | None => Raise JSONDecodeError
  end.

(** [body.get(k, default)]; only a dict has [get]. *)
Definition get_default (k : string) (default : pyval) (body : pyval)
  : result pyval :=
  match body with
  | PDict kvs =>
      match dict_get k kvs with
      | Some v => Ok v
      | None => Ok default
      end
  | _ => Raise AttributeError
  end.

Section Program.

(** The iteration order of sets. *)
Variable order : set_order.
(** The server and the transport: what [requests.post(url, json=body)]
    returns or raises. *)
Variable network : string -> pyval -> result response.
(** [str] of a list or a dict. *)
Variable repr : pyval -> string.

(** [requests.post(url, json=body)]. *)
Definition requests_post (url : string) (body : pyval) : M response :=
  emit (Post url body) ;;
  lift (network url body).

(** ['{}'.format(v)]. *)
Definition py_str (v : pyval) : string :=
  match v with
  | PScalar SNone => "None"
  | PScalar (SBool true) => "True"
  | PScalar (SBool false) => "False"
  | PScalar (SInt z) => str_of_int z
  | PScalar (SStr s) => s
  | _ => repr v
  end.

(** [[dict(t) for t in {tuple(d.items()) for d in W}]] *)
Definition normalize (W : list record) : list record :=
  map py_dict (iter_order order (py_set (map items W))).

(** The same on an arbitrary value of [data['warnings']], with the
    exceptions Python raises when it is not a list of records. *)
Definition unique_warnings (v : pyval) : result pyval :=
  rbind (iterate v) (fun ds =>
  rbind (rmap hashable_items ds) (fun W =>
  Ok (PList (map record_value (normalize W))))).

(** Lines 120-123: the decision to upload. *)
Definition resolve_consent (report : option bool) : M bool :=
  match report with
  | None =>
      let msg :=
        ("Do you want to report this to " ++ REPORT_URL ++ " ? [n]: ")%string in
      answer <- input msg ;;
      ret (contains "y" (lower answer))
  | Some b => ret b
  end.

(** Lines 131-138: what is made of the server's answer. *)
Definition show_outcome (r : response) : M unit :=
  if (status_code r =? 200)%Z then
    body <- lift (response_json r) ;;
    report_url <- lift (get_default "url" (PStr REPORT_URL) body) ;;
    print ("Your test results have been reported and are available at: "
           ++ py_str report_url ++ newline ++ "Thank you!")%string
  else
    print ("Error: Could not sent a test report to " ++ REPORT_URL ++ ".")%string ;;
    print (reason r).

(** Lines 124-138. *)
Definition submit (report : bool) : M unit :=
  if report then
    warnings <- getitem "warnings" ;;
    unique <- lift (unique_warnings warnings) ;;
    setitem "warnings" unique ;;
    payload <- get_data ;;
    r <- requests_post ("https://" ++ REPORT_URL ++ "/post/v2/")%string payload ;;
    show_outcome r
  else ret tt.

Definition upload_json_report (report : option bool) : M unit :=
  report <- resolve_consent report ;;
  submit report.

End Program.

(** A call starts with no event yet. *)
Definition start (lines : list string) (d : pyval) : world :=
  {| stdin := lines; data := d; trace := [] |}.

(** The texts written by [print], oldest first. *)
Fixpoint printed (tr : list event) : list string :=
  match tr with
  | [] => []
  | Print text :: tr' => text :: printed tr'
  | _ :: tr' => printed tr'
  end.

(** The requests sent, oldest first. *)
Fixpoint posts (tr : list event) : list (string * pyval) :=
  match tr with
  | [] => []
  | Post url body :: tr' => (url, body) :: posts tr'
  | _ :: tr' => posts tr'
  end.

(** The prompts shown by [input], oldest first. *)
Fixpoint prompts (tr : list event) : list string :=
  match tr with
  | [] => []
  | Input p :: tr' => p :: prompts tr'
  | _ :: tr' => prompts tr'
  end.

(** Everything written to standard output, in order: the prompts of
    [input] as they are, the texts of [print] each followed by a line
    break. *)
Fixpoint console (tr : list event) : string :=
  match tr with
  | [] => ""
  | Input p :: tr' => p ++ console tr'
  | Print text :: tr' => text ++ newline ++ console tr'
  | Post _ _ :: tr' => console tr'
  end%string.

(** The two texts of lines 133-137. *)
Definition success_message (url_text : string) : string :=
  ("Your test results have been reported and are available at: "
   ++ url_text ++ newline ++ "Thank you!")%string.

Definition failure_message : string :=
  "Error: Could not sent a test report to tests.obspy.org.".

(** The state right after the request went out. *)
Definition posted (w : world) (payload : pyval) : world :=
  {| stdin := stdin w;
     data := payload;
     trace := trace w ++ [Post "https://tests.obspy.org/post/v2/" payload] |}.

(** Three answers of the server. *)
Definition unavailable : response :=
  {| status_code := 503; reason := "Service Unavailable"; json := None |}.

Definition garbled : response :=
  {| status_code := 200; reason := "OK"; json := None |}.

Definition accepted : response :=
  {| status_code := 200; reason := "OK";
     json := Some (PDict [("url", PStr "https://tests.example/r/42")]) |}.

(** The address of every upload. *)
Definition post_url : string := "https://tests.obspy.org/post/v2/".

(** The question asked when neither [--report] nor [--no-report] was
    given. *)
Definition question : string :=
  "Do you want to report this to tests.obspy.org ? [n]: ".

(** Two lists of records are equal as sets when each record of one has
    an equal ([==]) record in the other. *)
Definition set_equal (A B : list record) : Prop :=
  (forall x, In x A -> exists y, In y B /\ dict_eqb x y = true) /\
  (forall y, In y B -> exists x, In x A /\ dict_eqb y x = true).

(** The same warning written twice, with its keys in two orders:
    [[{"a": 1, "b": 2}, {"b": 2, "a": 1}]]. *)
Definition warning_ab : record := [("a", SInt 1); ("b", SInt 2)].
Definition warning_ba : record := [("b", SInt 2); ("a", SInt 1)].
Definition reordered_pair : list record := [warning_ab; warning_ba].

(** A report holding them. *)
Definition reordered_report : pyval :=
  PDict [("summary", PDict [("passed", PScalar (SInt 3))]);
         ("warnings", PList (map record_value reordered_pair))].

(** A server that always gives the same answer. *)
Definition always (r : response) : string -> pyval -> result response :=
  fun _ _ => Ok r.

(** A stand-in for [str] on lists and dicts, for the examples. *)
Definition no_repr : pyval -> string := fun _ => "".

End Runtests.


(* ================================================================== *)
(** ** The requirement check and the entry point *)

Module Main.
Import PyStr Py Runtests.

(** [delimiters = (" ", "=", "<", ">", "!")] *)
Definition delimiters : list ascii :=
  [" "%char; "="%char; "<"%char; ">"%char; "!"%char].

Definition is_delimiter (c : ascii) : bool :=
  existsb (Ascii.eqb c) delimiters.

(** [re.split(patterns, package_req, maxsplit=1)[0]]: the text before
    the first delimiter, all of it when there is none. *)
Fixpoint pkg_name (package_req : string) : string :=
  match package_req with
  | EmptyString => EmptyString
  | String c rest =>
      if is_delimiter c then EmptyString else String c (pkg_name rest)
  end.

(** What [pkg_resources.get_distribution(name).version] does: it
    returns, raises [DistributionNotFound], or raises something else. *)
Inductive lookup : Type :=
| Found
| NotFound
| OtherError.

(** How [main] ends: it never returns, it leaves through [sys.exit] or
    through an exception. *)
Inductive termination : Type :=
| SystemExit (status : Z)
| ImportError (msg : string)
| LookupRaised
| PytestRaised
| Uncaught (e : exn).

(** What [pytest.main(plugins=[plugin])] does: it returns a status and
    leaves a report in [plugin.report], or it raises; either way it may
    have changed the working directory. *)
Inductive pytest_result : Type :=
| Finished (status : Z) (report : pyval) (cwd_after : string)
| Crashed (cwd_after : string).

Definition cwd_after_pytest (r : pytest_result) : string :=
  match r with
  | Finished _ _ c => c
  | Crashed c => c
  end.

(** The process [main] runs in: [sys.argv], the working directory, the
    pytest sessions so far (arguments and directory of each), the lines
    waiting on standard input and the events so far. *)
Record process : Type := {
  argv : list string;
  cwd : string;
  sessions : list (list string * string);
  input_lines : list string;
  events : list event
}.

(** [flag in sys.argv] *)
Definition in_argv (flag : string) (args : list string) : bool :=
  existsb (String.eqb flag) args.

(** Lines 96-97. *)
Definition report_flag (args : list string) : option bool :=
  if in_argv "--report" args then Some true
  else if in_argv "--no-report" args then Some false
  else None.

(** Line 98. *)
Definition wants_help (args : list string) : bool :=
  in_argv "-h" args || in_argv "--help" args.

(** Lines 101-104: [sys.argv] as pytest gets it. *)
Definition pytest_argv (args : list string) : list string :=
  (if forallb (fun arg => negb (contains "--json-report-file" arg)) args
   then args ++ ["--json-report-file=none"]
   else args) ++ ["--tb=native"].

(** [os.chdir(path)] *)
Definition chdir (path : string) (p : process) : process :=
  {| argv := argv p; cwd := path; sessions := sessions p;
     input_lines := input_lines p; events := events p |}.

Definition set_argv (args : list string) (p : process) : process :=
  {| argv := args; cwd := cwd p; sessions := sessions p;
     input_lines := input_lines p; events := events p |}.

Definition tab : string := String (ascii_of_nat 9) EmptyString.

Section Script.

(** [obspy.core.util.requirements.PYTEST_REQUIRES] *)
Variable PYTEST_REQUIRES : list string.
(** The installed distributions, as [pkg_resources] sees them. *)
Variable get_distribution : string -> lookup.
(** The docstring of the module. *)
Variable doc : string.
(** [Path(obspy.__file__).parent] *)
Variable base_obspy_path : string.
(** pytest, run on some arguments in some directory. *)
Variable pytest_main : list string -> string -> pytest_result.
(** The parameters of [upload_json_report]. *)
Variable order : set_order.
Variable network : string -> pyval -> result response.
Variable repr : pyval -> string.

(** Lines 72-74. *)
Definition requirements_message : string :=
  (newline
   ++ "Not all ObsPy's test requirements are installed. You need to "
   ++ "install them before using obspy-runtest. Example with pip: "
   ++ newline ++ tab ++ "$ pip install "
   ++ String.concat " " PYTEST_REQUIRES)%string.

(** Lines 75-81: the loop over the requirements; [None] when it runs to
    its end. *)
Fixpoint check_requirements (reqs : list string) : option termination :=
  match reqs with
  | [] => None
  | package_req :: rest =>
      match get_distribution (pkg_name package_req) with
      | Found => check_requirements rest
      | NotFound => Some (ImportError requirements_message)
      | OtherError => Some LookupRaised
      end
  end.

Definition _ensure_tests_requirements_installed : option termination :=
  check_requirements PYTEST_REQUIRES.

(** [pytest.main(plugins=[plugin])], in the directory and on the
    arguments of the moment. *)
Definition run_pytest (p : process) : pytest_result * process :=
  let r := pytest_main (argv p) (cwd p) in
  (r, {| argv := argv p;
         cwd := cwd_after_pytest r;
         sessions := sessions p ++ [(argv p, cwd p)];
         input_lines := input_lines p;
         events := events p |}).

(** [upload_json_report(report=report, data=plugin.report)] *)
Definition call_upload (report : option bool) (plugin_report : pyval)
           (p : process) : result unit * process :=
  let out := upload_json_report order network repr report
               {| stdin := input_lines p;
                  data := plugin_report;
                  trace := events p |} in
  (fst out,
   {| argv := argv p; cwd := cwd p; sessions := sessions p;
      input_lines := stdin (snd out);
      events := trace (snd out) |}).

(** Lines 84-115. *)
Definition main (p : process) : termination * process :=
  match _ensure_tests_requirements_installed with
  | Some raised => (raised, p)
  | None =>
      let report := report_flag (argv p) in
      if wants_help (argv p) then
        (SystemExit 0,
         {| argv := argv p; cwd := cwd p; sessions := sessions p;
            input_lines := input_lines p;
            events := events p ++ [Print doc] |})
      else
        let p1 := set_argv (pytest_argv (argv p)) p in
        let here := cwd p1 in
        let p2 := chdir base_obspy_path p1 in
        let (r, p3) := run_pytest p2 in
        let p4 := chdir here p3 in
        match r with
        | Crashed _ => (PytestRaised, p4)
        | Finished status plugin_report _ =>
            match call_upload report plugin_report p4 with
            | (Ok _, p5) => (SystemExit status, p5)
            | (Raise e, p5) => (Uncaught e, p5)
            end
        end
  end.

End Script.

(** A process that has done nothing yet. *)
Definition launch (args : list string) (dir : string)
           (lines : list string) : process :=
  {| argv := args; cwd := dir; sessions := [];
     input_lines := lines; events := [] |}.

(** Sample surroundings for the examples. *)
Definition sample_requires : list string :=
  ["pytest>=5.0"; "pytest-json-report"; "pytest-cov !=2.0"].

Definition all_installed : string -> lookup := fun _ => Found.

Definition only_pytest : string -> lookup :=
  fun name => if String.eqb name "pytest" then Found else NotFound.

Definition pytest_passes : list string -> string -> pytest_result :=
  fun _ _ => Finished 0 reordered_report "/tmp".

Definition pytest_crashes : list string -> string -> pytest_result :=
  fun _ _ => Crashed "/tmp".

End Main.


(* ================================================================== *)
(** ** Facts about strings *)

Section StringFacts.
Import PyStr.

Lemma append_assoc (a b c : string) :
  ((a ++ b) ++ c)%string = (a ++ (b ++ c))%string.
Proof. induction a as [|x a IH]; simpl; [reflexivity | now rewrite IH]. Qed.

Lemma starts_with_app (x b : string) : starts_with x (x ++ b) = true.
Proof.
  induction x as [|c x IH]; simpl.
  - reflexivity.
  - now rewrite Ascii.eqb_refl, IH.
Qed.

Lemma starts_with_split (x h : string) :
  starts_with x h = true -> exists post, h = (x ++ post)%string.
Proof.
  revert h; induction x as [|c x IH]; intros h H.
  - now exists h.
  - destruct h as [|c' h]; simpl in H; [discriminate|].
    apply andb_true_iff in H as [Hc Hx].
    apply Ascii.eqb_eq in Hc; subst c'.
    destruct (IH _ Hx) as [post ->].
    now exists post.
Qed.

Lemma contains_unfold (x h : string) :
  contains x h =
  starts_with x h ||
  match h with
  | EmptyString => false
  | String _ h' => contains x h'
  end.
Proof. destruct h; reflexivity. Qed.

Lemma contains_app (a x b : string) : contains x (a ++ x ++ b) = true.
Proof.
  induction a as [|c a IH]; simpl.
  - rewrite contains_unfold, starts_with_app. reflexivity.
  - rewrite IH. apply orb_true_r.
Qed.

Lemma contains_spec (x h : string) :
  contains x h = true <-> substring_of x h.
Proof.
  split.
  - induction h as [|c h IH]; simpl; intros H.
    + rewrite orb_false_r in H.
      destruct (starts_with_split _ _ H) as [post E].
      now exists EmptyString, post.
    + apply orb_true_iff in H as [H|H].
      * destruct (starts_with_split _ _ H) as [post E].
        now exists EmptyString, post.
      * destruct (IH H) as (pre & post & ->).
        now exists (String c pre), post.
  - intros (pre & post & ->). apply contains_app.
Qed.

Lemma lower_char_y (c : ascii) :
  lower_char c = "y"%char <-> c = "y"%char \/ c = "Y"%char.
Proof.
  destruct c as [[] [] [] [] [] [] [] []]; vm_compute;
    split; intros H; try discriminate H; auto;
    destruct H as [H|H]; discriminate H.
Qed.

Lemma contains_char (c : ascii) (s : string) :
  contains (String c EmptyString) s = true <->
  In c (list_ascii_of_string s).
Proof.
  induction s as [|d s IH]; simpl.
  - split; [discriminate | tauto].
  - rewrite orb_true_iff, andb_true_r, IH, Ascii.eqb_eq.
    split; intros [H|H]; auto.
Qed.

Lemma in_lower_y (s : string) :
  In "y"%char (list_ascii_of_string (lower s)) <->
  In "y"%char (list_ascii_of_string s) \/
  In "Y"%char (list_ascii_of_string s).
Proof.
  induction s as [|d s IH]; simpl.
  - tauto.
  - rewrite IH, lower_char_y. intuition congruence.
Qed.

End StringFacts.


(* ================================================================== *)
(** ** Facts about dictionaries *)

Section DictFacts.
Import Py.
Context {V : Type}.
Implicit Types (d t : dict V) (k : string) (v : V).

Lemma dict_get_set_same k v d : dict_get k (dict_set k v d) = Some v.
Proof.
  induction d as [|[k' v'] d IH]; simpl.
  - now rewrite String.eqb_refl.
  - destruct (String.eqb k' k) eqn:E; simpl; rewrite E; auto.
Qed.

Lemma dict_get_set_other k k' v d :
  k' <> k -> dict_get k' (dict_set k v d) = dict_get k' d.
Proof.
  intros N. induction d as [|[k0 v0] d IH]; simpl.
  - destruct (String.eqb_spec k k'); congruence.
  - destruct (String.eqb_spec k0 k); simpl.
    + subst k0. destruct (String.eqb_spec k k'); congruence.
    + now rewrite IH.
Qed.

Lemma dict_get_in k v d :
  wf_dict d -> In (k, v) d -> dict_get k d = Some v.
Proof.
  unfold wf_dict, keys.
  induction d as [|[k0 v0] d IH]; simpl; intros W H; [tauto|].
  inversion W as [|? ? Hn Hd]; subst.
  destruct H as [H|H].
  - inversion H; subst. now rewrite String.eqb_refl.
  - destruct (String.eqb_spec k0 k) as [->|_]; auto.
    exfalso. apply Hn. now apply (in_map fst) in H.
Qed.

Lemma keys_dict_set_old k v d :
  In k (keys d) -> keys (dict_set k v d) = keys d.
Proof.
  unfold keys.
  induction d as [|[k0 v0] d IH]; simpl; intros H; [tauto|].
  destruct (String.eqb_spec k0 k) as [->|N]; simpl; auto.
  destruct H as [H|H]; [congruence|]. now rewrite IH.
Qed.

Lemma dict_set_new k v d :
  ~ In k (keys d) -> dict_set k v d = d ++ [(k, v)].
Proof.
  unfold keys.
  induction d as [|[k0 v0] d IH]; simpl; intros H; auto.
  destruct (String.eqb_spec k0 k) as [->|N]; [tauto|].
  rewrite IH; tauto.
Qed.

Lemma in_keys_dec k d : {In k (keys d)} + {~ In k (keys d)}.
Proof. apply in_dec, string_dec. Qed.

Lemma wf_dict_set k v d : wf_dict d -> wf_dict (dict_set k v d).
Proof.
  unfold wf_dict. intros W.
  destruct (in_keys_dec k d) as [H|H].
  - now rewrite keys_dict_set_old.
  - rewrite dict_set_new by assumption. unfold keys in *.
    rewrite map_app; simpl.
    apply NoDup_incl_NoDup with (l := k :: map fst d).
    + now constructor.
    + rewrite length_app; simpl; lia.
    + intros x Hx. apply in_or_app. simpl in *. tauto.
Qed.

Lemma wf_fold_dict_set t d :
  wf_dict d ->
  wf_dict (fold_left (fun d kv => dict_set (fst kv) (snd kv) d) t d).
Proof.
  revert d; induction t as [|[k v] t IH]; simpl; intros d W; auto.
  apply IH, wf_dict_set, W.
Qed.

Lemma wf_py_dict t : wf_dict (py_dict t).
Proof. apply wf_fold_dict_set. constructor. Qed.

Lemma fold_dict_set_new t d :
  wf_dict (d ++ t) ->
  fold_left (fun d kv => dict_set (fst kv) (snd kv) d) t d = d ++ t.
Proof.
  revert d; induction t as [|[k v] t IH]; simpl; intros d W.
  - now rewrite app_nil_r.
  - rewrite dict_set_new.
    + rewrite IH; rewrite <- app_assoc; auto.
    + unfold wf_dict, keys in *. rewrite map_app in W. simpl in W.
      apply NoDup_remove_2 in W. intros H. apply W, in_or_app. auto.
Qed.

(** [dict(tuple(d.items()))] is [d] again. *)
Lemma py_dict_wf t : wf_dict t -> py_dict t = t.
Proof. intros W. apply (fold_dict_set_new t []), W. Qed.

Lemma py_dict_idem t : py_dict (py_dict t) = py_dict t.
Proof. apply py_dict_wf, wf_py_dict. Qed.

End DictFacts.


(* ================================================================== *)
(** ** Facts about equality and sets *)

Section SetFacts.
Import Py.

(** Two scalars are equal for Python exactly when they have the same
    representative. *)
Lemma scalar_eqb_eq (a b : scalar) :
  scalar_eqb a b = true <-> as_number a = as_number b.
Proof.
  destruct a as [|[]|x|s], b as [|[]|y|t]; unfold scalar_eqb;
    cbn [as_number]; rewrite ?Z.eqb_eq, ?String.eqb_eq;
    split; intros H; try discriminate H; congruence.
Qed.

Lemma item_eqb_eq (a b : string * scalar) :
  item_eqb a b = true <-> canon_item a = canon_item b.
Proof.
  unfold item_eqb, canon_item.
  rewrite andb_true_iff, String.eqb_eq, scalar_eqb_eq.
  split; [intros [-> ->]; reflexivity | intros H; split; congruence].
Qed.

Lemma tuple_eqb_eq (s t : item_tuple) :
  tuple_eqb s t = true <-> map canon_item s = map canon_item t.
Proof.
  revert t; induction s as [|a s IH]; intros [|b t]; simpl;
    try (split; [discriminate | intros H; discriminate H]);
    try (split; reflexivity).
  rewrite andb_true_iff, item_eqb_eq, IH.
  split; [intros [-> ->]; reflexivity | intros H; split; congruence].
Qed.

#[local] Instance teq_equiv : Equivalence teq.
Proof.
  unfold teq. split.
  - intros s. now apply tuple_eqb_eq.
  - intros s t H. apply tuple_eqb_eq. apply tuple_eqb_eq in H. congruence.
  - intros s t u H1 H2. apply tuple_eqb_eq.
    apply tuple_eqb_eq in H1, H2. congruence.
Qed.

Lemma tuple_eqb_refl (s : item_tuple) : tuple_eqb s s = true.
Proof. now apply tuple_eqb_eq. Qed.

Lemma tuple_eqb_keys (s t : item_tuple) :
  tuple_eqb s t = true -> keys s = keys t.
Proof.
  intros H. apply tuple_eqb_eq in H. unfold keys.
  assert (E : forall l : item_tuple, map fst l = map fst (map canon_item l)).
  { intros l. rewrite map_map. reflexivity. }
  rewrite (E s), (E t), H. reflexivity.
Qed.

(** Equal item tuples make equal dictionaries. *)
Lemma tuple_eqb_lookup (s t : item_tuple) :
  tuple_eqb s t = true -> wf_dict s ->
  forall kv, In kv s ->
    exists v, dict_get (fst kv) t = Some v /\ scalar_eqb (snd kv) v = true.
Proof.
  unfold wf_dict, keys.
  revert t; induction s as [|a s IH]; intros [|b t]; simpl;
    try discriminate; try tauto.
  intros H W kv Hin.
  apply andb_true_iff in H as [Hab Hst].
  inversion W as [|? ? Hn Hd]; subst.
  unfold item_eqb in Hab. apply andb_true_iff in Hab as [Hk Hv].
  apply String.eqb_eq in Hk.
  destruct b as [kb vb]; simpl in *.
  destruct Hin as [<-|Hin].
  - rewrite <- Hk, String.eqb_refl. eauto.
  - destruct (String.eqb_spec kb (fst kv)) as [E|_].
    + exfalso. apply Hn. rewrite Hk, E. now apply in_map.
    + now apply IH.
Qed.

Lemma tuple_eqb_dict_eqb (s t : item_tuple) :
  tuple_eqb s t = true -> wf_dict s -> dict_eqb s t = true.
Proof.
  intros H W. unfold dict_eqb. apply andb_true_iff. split.
  - apply Nat.eqb_eq. apply tuple_eqb_keys in H. unfold keys in H.
    now rewrite <- (length_map fst s), H, length_map.
  - apply forallb_forall. intros kv Hin.
    destruct (tuple_eqb_lookup s t H W kv Hin) as (v & -> & Hv).
    exact Hv.
Qed.

Lemma dict_eqb_refl (d : record) : wf_dict d -> dict_eqb d d = true.
Proof. apply tuple_eqb_dict_eqb, tuple_eqb_refl. Qed.

Lemma set_add_incl (x y : item_tuple) (s : list item_tuple) :
  In y (set_add x s) -> y = x \/ In y s.
Proof.
  induction s as [|z s IH]; simpl.
  - intuition.
  - destruct (tuple_eqb z x); simpl; intuition.
Qed.

Lemma set_add_keeps (x y : item_tuple) (s : list item_tuple) :
  In y s -> In y (set_add x s).
Proof.
  induction s as [|z s IH]; simpl; [tauto|].
  destruct (tuple_eqb z x); simpl; intuition.
Qed.

Lemma set_add_has (x : item_tuple) (s : list item_tuple) :
  exists y, In y (set_add x s) /\ teq y x.
Proof.
  induction s as [|z s IH]; simpl.
  - exists x. split; [now left | apply tuple_eqb_refl].
  - destruct (tuple_eqb z x) eqn:E.
    + exists z. split; [now left | exact E].
    + destruct IH as (y & Hy & Hyx). exists y. split; [now right | exact Hyx].
Qed.

Lemma set_add_InA (x y : item_tuple) (s : list item_tuple) :
  InA teq y (set_add x s) -> teq y x \/ InA teq y s.
Proof.
  induction s as [|z s IH]; simpl; intros H.
  - inversion H as [? ? E|? ? E]; subst; [now left | inversion E].
  - destruct (tuple_eqb z x); [now right|].
    inversion H as [? ? E|? ? E]; subst.
    + right. now constructor.
    + destruct (IH E); [now left | right; now constructor 2].
Qed.

Lemma set_add_NoDupA (x : item_tuple) (s : list item_tuple) :
  NoDupA teq s -> NoDupA teq (set_add x s).
Proof.
  induction s as [|z s IH]; simpl; intros H.
  - constructor; [intros E; inversion E | constructor].
  - destruct (tuple_eqb z x) eqn:E; [exact H|].
    inversion H as [|? ? Hn Hd]; subst.
    constructor; [|now apply IH].
    intros Hin. apply set_add_InA in Hin as [Hzx|Hin]; [|tauto].
    unfold teq in Hzx. congruence.
Qed.

Lemma fold_set_add_incl (l s : list item_tuple) (y : item_tuple) :
  In y (fold_left (fun s x => set_add x s) l s) -> In y l \/ In y s.
Proof.
  revert s; induction l as [|x l IH]; simpl; intros s H; [tauto|].
  apply IH in H as [H|H]; [tauto|].
  apply set_add_incl in H. intuition.
Qed.

Lemma fold_set_add_keeps (l s : list item_tuple) (y : item_tuple) :
  In y s -> In y (fold_left (fun s x => set_add x s) l s).
Proof.
  revert s; induction l as [|x l IH]; simpl; intros s H; [exact H|].
  apply IH, set_add_keeps, H.
Qed.

Lemma fold_set_add_has (l s : list item_tuple) (x : item_tuple) :
  In x l ->
  exists y, In y (fold_left (fun s x => set_add x s) l s) /\ teq y x.
Proof.
  revert s; induction l as [|z l IH]; simpl; intros s H; [tauto|].
  destruct H as [->|H]; [|now apply IH].
  destruct (set_add_has x s) as (y & Hy & Hyx).
  exists y. split; [|exact Hyx]. now apply fold_set_add_keeps.
Qed.

Lemma fold_set_add_NoDupA (l s : list item_tuple) :
  NoDupA teq s -> NoDupA teq (fold_left (fun s x => set_add x s) l s).
Proof.
  revert s; induction l as [|x l IH]; simpl; intros s H; [exact H|].
  apply IH, set_add_NoDupA, H.
Qed.

(** Every member of the set comes from the list. *)
Lemma py_set_incl (l : list item_tuple) (y : item_tuple) :
  In y (py_set l) -> In y l.
Proof. intros H. apply fold_set_add_incl in H. simpl in H. tauto. Qed.

(** Every element of the list has an equal member in the set. *)
Lemma py_set_has (l : list item_tuple) (x : item_tuple) :
  In x l -> exists y, In y (py_set l) /\ teq y x.
Proof. apply fold_set_add_has. Qed.

(** No two members of the set are equal. *)
Lemma py_set_NoDupA (l : list item_tuple) : NoDupA teq (py_set l).
Proof. apply fold_set_add_NoDupA. constructor. Qed.

End SetFacts.


(* ================================================================== *)
(** ** The normalizer *)

Section NormalizerFacts.
Import Py Runtests.
Variable order : set_order.

Lemma in_iter_order (s : list item_tuple) (x : item_tuple) :
  In x (iter_order order s) <-> In x s.
Proof.
  split; apply Permutation_in;
    [|apply Permutation_sym]; apply iter_order_perm.
Qed.

Lemma map_items (W : list record) : map items W = W.
Proof. apply map_id. Qed.

Lemma normalize_nil : normalize order [] = [].
Proof.
  unfold normalize, py_set; simpl.
  now rewrite (Permutation_nil (Permutation_sym (iter_order_perm order []))).
Qed.

(** Every record of the output is a well-formed dictionary. *)
Lemma normalize_wf (W : list record) :
  Forall wf_dict (normalize order W).
Proof.
  apply Forall_forall. intros r H. unfold normalize in H.
  apply in_map_iff in H as (t & <- & _). apply wf_py_dict.
Qed.

(** On records, the output is the set itself in iteration order. *)
Lemma normalize_eq (W : list record) :
  Forall wf_dict W -> normalize order W = iter_order order (py_set W).
Proof.
  intros HW. unfold normalize. rewrite map_items.
  rewrite <- (map_id (iter_order order (py_set W))) at 2.
  apply map_ext_in. intros t Ht.
  apply py_dict_wf. rewrite Forall_forall in HW.
  apply HW, py_set_incl. now apply in_iter_order.
Qed.

(** Nothing is invented. *)
Lemma normalize_sound (W : list record) (r : record) :
  Forall wf_dict W -> In r (normalize order W) -> In r W.
Proof.
  intros HW H. rewrite normalize_eq in H by assumption.
  now apply py_set_incl, in_iter_order.
Qed.

(** Nothing is lost: every record has an equal one in the output. *)
Lemma normalize_complete (W : list record) (r : record) :
  Forall wf_dict W -> In r W ->
  exists r', In r' (normalize order W) /\ teq r' r.
Proof.
  intros HW H. rewrite normalize_eq by assumption.
  destruct (py_set_has W r H) as (y & Hy & Hyr).
  exists y. split; [now apply in_iter_order | exact Hyr].
Qed.

(** No two records of the output have equal item tuples. *)
Lemma normalize_NoDupA (W : list record) :
  Forall wf_dict W -> NoDupA teq (normalize order W).
Proof.
  intros HW. rewrite normalize_eq by assumption.
  eapply (PermutationA_preserves_NoDupA teq_equiv).
  - apply (Permutation_PermutationA teq_equiv).
    apply Permutation_sym, iter_order_perm.
  - apply py_set_NoDupA.
Qed.

(** C7: the normalizer is idempotent up to set equality: each record of
    Normalize(Normalize(W)) has an equal record in Normalize(W), and each
    record of Normalize(W) has an equal record in Normalize(Normalize(W)),
    for every warning sequence W. *)
Theorem normalize_idempotent (W : list record) :
  set_equal (normalize order (normalize order W)) (normalize order W).
Proof.
  pose proof (normalize_wf W) as HL.
  split.
  - intros x Hx. apply normalize_sound in Hx; [|exact HL].
    exists x. split; [exact Hx|].
    apply dict_eqb_refl. rewrite Forall_forall in HL. now apply HL.
  - intros y Hy.
    destruct (normalize_complete _ y HL Hy) as (x & Hx & Hxy).
    exists x. split; [exact Hx|].
    apply tuple_eqb_dict_eqb.
    + apply (@Equivalence_Symmetric _ teq teq_equiv), Hxy.
    + rewrite Forall_forall in HL. now apply HL.
Qed.

Lemma reordered_pair_survives :
  Permutation (normalize order reordered_pair) reordered_pair.
Proof.
  assert (E : py_set (map items reordered_pair) = reordered_pair)
    by reflexivity.
  unfold normalize. rewrite E.
  change reordered_pair with (map py_dict reordered_pair) at 2.
  apply Permutation_map, iter_order_perm.
Qed.

(** C1: on the warning sequence [{"a": 1, "b": 2}, {"b": 2, "a": 1}],
    whose two records are equal dictionaries written with their keys in
    two orders, the normalizer returns both records: the record occurs
    twice in the output, not once. *)
Theorem normalize_keeps_reordered_duplicate :
  Forall wf_dict reordered_pair /\
  dict_eqb warning_ab warning_ba = true /\
  Permutation (normalize order reordered_pair) reordered_pair /\
  length (filter (dict_eqb warning_ab) (normalize order reordered_pair)) = 2.
Proof.
  pose proof reordered_pair_survives as P.
  split; [|split; [reflexivity|split; [exact P|]]].
  - repeat constructor; simpl; intuition discriminate.
  - apply Permutation_sym, Permutation_length_2_inv in P.
    destruct P as [-> | ->]; reflexivity.
Qed.

End NormalizerFacts.


(* ================================================================== *)
(** ** The upload *)

Section UploadFacts.
Import PyStr Py Runtests.
Variable order : set_order.
Variable network : string -> pyval -> result response.
Variable repr : pyval -> string.

#[local] Abbreviation upload := (upload_json_report order network repr).

Lemma console_app (a b : list event) :
  console (a ++ b) = (console a ++ console b)%string.
Proof.
  induction a as [|[p|u body|text] a IH]; simpl; auto.
  - rewrite IH. now rewrite append_assoc.
  - rewrite IH. now rewrite !append_assoc.
Qed.

Lemma printed_app (a b : list event) :
  printed (a ++ b) = printed a ++ printed b.
Proof.
  induction a as [|[p|u body|text] a IH]; simpl; auto. now rewrite IH.
Qed.

Lemma posts_app (a b : list event) : posts (a ++ b) = posts a ++ posts b.
Proof.
  induction a as [|[p|u body|text] a IH]; simpl; auto. now rewrite IH.
Qed.

Lemma prompts_app (a b : list event) :
  prompts (a ++ b) = prompts a ++ prompts b.
Proof.
  induction a as [|[p|u body|text] a IH]; simpl; auto. now rewrite IH.
Qed.

(** The call is the decision followed by the submission. *)
Lemma upload_eq (report : option bool) (w : world) :
  upload report w =
  match resolve_consent report w with
  | (Ok c, w1) => submit order network repr c w1
  | (Raise e, w1) => (Raise e, w1)
  end.
Proof. reflexivity. Qed.

(** The decision leaves [data] alone and sends nothing. *)
Lemma resolve_consent_frame (report : option bool) (w w1 : world)
      (r : result bool) :
  resolve_consent report w = (r, w1) ->
  data w1 = data w /\
  posts (trace w1) = posts (trace w) /\
  printed (trace w1) = printed (trace w).
Proof.
  destruct w as [lines d tr], report as [b|]; cbn.
  - intros [= <- <-]. auto.
  - destruct lines as [|l lines]; cbn; intros [= <- <-]; cbn;
      rewrite posts_app, printed_app; cbn; rewrite !app_nil_r; auto.
Qed.

Lemma rmap_hashable_items (W : list record) :
  rmap hashable_items (map record_value W) = Ok W.
Proof.
  assert (E : forall r : record, hashable_items (record_value r) = Ok r).
  { intros r. unfold hashable_items, record_value.
    induction r as [|[k v] r IH]; simpl; [reflexivity|].
    now rewrite IH. }
  induction W as [|r W IH]; [reflexivity|].
  cbn [map rmap]. now rewrite E, IH.
Qed.

(** On a list of records, line 126 computes the normalizer. *)
Lemma unique_warnings_records (W : list record) :
  unique_warnings order (PList (map record_value W)) =
  Ok (PList (map record_value (normalize order W))).
Proof.
  unfold unique_warnings; simpl. now rewrite rmap_hashable_items.
Qed.

(** With consent, a report that has a list of warnings is rewritten and
    sent; what follows depends on the answer. *)
Lemma submit_sends (w : world) (kvs : dict pyval) (ws u : pyval) :
  data w = PDict kvs ->
  dict_get "warnings" kvs = Some ws ->
  unique_warnings order ws = Ok u ->
  let payload := PDict (dict_set "warnings" u kvs) in
  submit order network repr true w =
  match network post_url payload with
  | Ok r => show_outcome repr r (posted w payload)
  | Raise e => (Raise e, posted w payload)
  end.
Proof.
  destruct w as [lines d tr]; simpl. intros -> Hws Hu.
  cbv [submit bind getitem get_data lift ret setitem requests_post emit].
  cbn [data stdin trace]. rewrite Hws, Hu. cbn [data stdin trace].
  cbv [post_url REPORT_URL append].
  destruct (network _ _); reflexivity.
Qed.

End UploadFacts.


(* ================================================================== *)
(** ** Consent *)

Section Consent.
Import PyStr Py Runtests.
Variable order : set_order.
Variable network : string -> pyval -> result response.
Variable repr : pyval -> string.

#[local] Abbreviation upload := (upload_json_report order network repr).

(** C2: with [report=False] the call returns at once: nothing is sent,
    nothing is written to the console, whatever the report is. *)
Theorem explicit_no_is_silent (lines : list string) (d : pyval) :
  upload (Some false) (start lines d) = (Ok tt, start lines d) /\
  posts (trace (snd (upload (Some false) (start lines d)))) = [] /\
  console (trace (snd (upload (Some false) (start lines d)))) = "".
Proof. repeat split. Qed.

(** C3: an explicit flag is returned as it is and standard input is not
    read; without a flag the question is asked once, one line is read,
    and the decision is yes exactly when that line has a "y" or a "Y" in
    it. *)
Theorem consent_resolution (b : bool) (w : world)
        (answer : string) (rest : list string) (d : pyval) (tr : list event) :
  resolve_consent (Some b) w = (Ok b, w) /\
  exists c : bool,
    resolve_consent None {| stdin := answer :: rest; data := d; trace := tr |}
    = (Ok c, {| stdin := rest; data := d; trace := tr ++ [Input question] |})
    /\ (c = true <->
        In "y"%char (list_ascii_of_string answer) \/
        In "Y"%char (list_ascii_of_string answer)).
Proof.
  split; [reflexivity|].
  exists (contains "y" (lower answer)). split; [reflexivity|].
  now rewrite contains_char, in_lower_y.
Qed.

(** C10: when the decision is no, the call returns normally in the state
    the decision left: [data] is the object it was, nothing is sent and
    nothing is printed.  [data] may be anything, [None] included. *)
Theorem declined_report_untouched (report : option bool) (w w1 : world) :
  resolve_consent report w = (Ok false, w1) ->
  upload report w = (Ok tt, w1) /\
  data w1 = data w /\
  posts (trace w1) = posts (trace w) /\
  printed (trace w1) = printed (trace w).
Proof.
  intros H. split.
  - rewrite upload_eq, H. reflexivity.
  - exact (resolve_consent_frame report w w1 _ H).
Qed.

End Consent.

Lemma declined_report_untouched_witness :
  Runtests.resolve_consent None (Runtests.start ["no thanks"] Py.PNone)
  = (Py.Ok false,
     {| Runtests.stdin := []; Runtests.data := Py.PNone;
        Runtests.trace := [Runtests.Input Runtests.question] |}) /\
  Runtests.upload_json_report Py.insertion_order
    (Runtests.always Runtests.accepted) Runtests.no_repr
    None (Runtests.start ["no thanks"] Py.PNone)
  = (Py.Ok tt,
     {| Runtests.stdin := []; Runtests.data := Py.PNone;
        Runtests.trace := [Runtests.Input Runtests.question] |}).
Proof.
  split; [reflexivity|].
  apply (declined_report_untouched Py.insertion_order
           (Runtests.always Runtests.accepted) Runtests.no_repr
           None (Runtests.start ["no thanks"] Py.PNone)).
  reflexivity.
Defined.


(* ================================================================== *)
(** ** The server's answer *)

Section Answer.
Import PyStr Py Runtests.
Variable order : set_order.
Variable network : string -> pyval -> result response.
Variable repr : pyval -> string.

#[local] Abbreviation upload := (upload_json_report order network repr).

(** What is made of the answer never touches [data]. *)
Lemma show_outcome_data (r : response) (w : world) :
  data (snd (show_outcome repr r w)) = data w.
Proof.
  unfold show_outcome.
  destruct (status_code r =? 200)%Z; [|reflexivity].
  cbv [bind lift response_json].
  destruct (json r) as [body|]; [|reflexivity].
  destruct (get_default "url" (PStr REPORT_URL) body); reflexivity.
Qed.

(** The call gets as far as the server, which answers [r]: consent is
    given, [data] is a dict whose "warnings" can be made unique, and the
    request for the rewritten report is answered. *)
Variables (report : option bool) (w w1 : world).
Variables (kvs : dict pyval) (ws u : pyval) (r : response).
Hypothesis consent : resolve_consent report w = (Ok true, w1).
Hypothesis report_dict : data w1 = PDict kvs.
Hypothesis has_warnings : dict_get "warnings" kvs = Some ws.
Hypothesis warnings_unique : unique_warnings order ws = Ok u.
Hypothesis answered :
  network post_url (PDict (dict_set "warnings" u kvs)) = Ok r.

Lemma upload_answered :
  upload report w =
  show_outcome repr r (posted w1 (PDict (dict_set "warnings" u kvs))).
Proof.
  rewrite upload_eq, consent.
  rewrite (submit_sends order network repr w1 kvs ws u
             report_dict has_warnings warnings_unique).
  now rewrite answered.
Qed.

(** C4, as amended: when the status is not 200 the call returns normally
    after printing two lines, the fixed text that names the report host
    and the reason phrase of the answer; the status is not printed. *)
Theorem failure_shows_reason :
  status_code r <> 200%Z ->
  upload report w =
  (Ok tt,
   {| stdin := stdin w1;
      data := PDict (dict_set "warnings" u kvs);
      trace := trace w1 ++
               [Post post_url (PDict (dict_set "warnings" u kvs));
                Print failure_message;
                Print (reason r)] |}) /\
  contains REPORT_URL (console (trace (snd (upload report w)))) = true /\
  contains (reason r) (console (trace (snd (upload report w)))) = true.
Proof.
  intros Hs.
  assert (E : upload report w =
              (Ok tt,
               {| stdin := stdin w1;
                  data := PDict (dict_set "warnings" u kvs);
                  trace := trace w1 ++
                           [Post post_url (PDict (dict_set "warnings" u kvs));
                            Print failure_message;
                            Print (reason r)] |})).
  { rewrite upload_answered. unfold show_outcome.
    destruct (Z.eqb_spec (status_code r) 200) as [E|_]; [contradiction|].
    cbv [bind print emit posted]. cbn [stdin data trace].
    now rewrite <- !app_assoc. }
  split; [exact E|].
  rewrite E. cbn [snd trace]. rewrite console_app. cbn [console].
  split; apply contains_spec.
  - exists (console (trace w1) ++ "Error: Could not sent a test report to ")%string,
      ("." ++ newline ++ reason r ++ newline ++ "")%string.
    now rewrite append_assoc.
  - exists (console (trace w1) ++ failure_message ++ newline)%string,
      (newline ++ "")%string.
    now rewrite !append_assoc.
Qed.

(** C5, as amended: when the status is 200 and the body does not parse,
    the error of [response.json()] leaves the call and nothing is
    printed. *)
Theorem garbled_success_raises :
  status_code r = 200%Z ->
  json r = None ->
  upload report w =
  (Raise JSONDecodeError, posted w1 (PDict (dict_set "warnings" u kvs))) /\
  printed (trace (snd (upload report w))) = printed (trace w1).
Proof.
  intros Hs Hj.
  assert (E : upload report w =
              (Raise JSONDecodeError,
               posted w1 (PDict (dict_set "warnings" u kvs)))).
  { rewrite upload_answered. unfold show_outcome.
    rewrite Hs. cbv [bind lift response_json]. now rewrite Hj. }
  split; [exact E|].
  rewrite E. cbn [snd posted trace].
  rewrite printed_app. cbn. apply app_nil_r.
Qed.

(** C6, as amended: when the status is 200 and the body parses to a
    dict, the call returns normally after printing one message, which
    contains the text of the "url" value when the dict has that key and
    the host name when it has not. *)
Theorem success_shows_url (body : dict pyval) :
  status_code r = 200%Z ->
  json r = Some (PDict body) ->
  let shown :=
    match dict_get "url" body with
    | Some v => py_str repr v
    | None => REPORT_URL
    end in
  upload report w =
  (Ok tt,
   {| stdin := stdin w1;
      data := PDict (dict_set "warnings" u kvs);
      trace := trace w1 ++
               [Post post_url (PDict (dict_set "warnings" u kvs));
                Print (success_message shown)] |}) /\
  contains shown (console (trace (snd (upload report w)))) = true.
Proof.
  intros Hs Hj shown.
  assert (E : upload report w =
              (Ok tt,
               {| stdin := stdin w1;
                  data := PDict (dict_set "warnings" u kvs);
                  trace := trace w1 ++
                           [Post post_url (PDict (dict_set "warnings" u kvs));
                            Print (success_message shown)] |})).
  { rewrite upload_answered. unfold show_outcome.
    rewrite Hs. cbv [bind lift response_json get_default]. rewrite Hj.
    subst shown. cbn [Z.eqb Pos.eqb].
    destruct (dict_get "url" body) as [v|];
      cbv [print emit posted]; cbn [stdin data trace];
      now rewrite <- !app_assoc. }
  split; [exact E|].
  rewrite E. cbn [snd trace]. rewrite console_app. cbn [console].
  apply contains_spec.
  exists (console (trace w1)
          ++ "Your test results have been reported and are available at: ")%string,
    (newline ++ "Thank you!" ++ newline ++ "")%string.
  unfold success_message. now rewrite !append_assoc.
Qed.

End Answer.


(* ================================================================== *)
(** ** The report *)

Section Report.
Import PyStr Py Runtests.
Variable order : set_order.
Variable network : string -> pyval -> result response.
Variable repr : pyval -> string.

#[local] Abbreviation upload := (upload_json_report order network repr).

Lemma dict_get_keys {V : Type} (k : string) (v : V) (d : dict V) :
  dict_get k d = Some v -> In k (keys d).
Proof.
  induction d as [|[k0 v0] d IH]; simpl; [discriminate|].
  destruct (String.eqb_spec k0 k); auto.
Qed.

(** With consent, on a report whose "warnings" is a list of records
    [W], the caller's dict ends up with "warnings" bound to the
    normalizer's output on [W], whether or not the upload then succeeds;
    the keys and their order are as before, and every other key has the
    value it had. *)
Theorem warnings_replaced_in_place
        (report : option bool) (w w1 : world)
        (kvs : dict pyval) (W : list record) :
  resolve_consent report w = (Ok true, w1) ->
  data w1 = PDict kvs ->
  dict_get "warnings" kvs = Some (PList (map record_value W)) ->
  let unique := PList (map record_value (normalize order W)) in
  data (snd (upload report w)) = PDict (dict_set "warnings" unique kvs) /\
  dict_get "warnings" (dict_set "warnings" unique kvs) = Some unique /\
  keys (dict_set "warnings" unique kvs) = keys kvs /\
  forall k, k <> "warnings" ->
       dict_get k (dict_set "warnings" unique kvs) = dict_get k kvs.
Proof.
  intros Hc Hd Hw unique. split; [|split; [|split]].
  - rewrite upload_eq, Hc.
    rewrite (submit_sends order network repr w1 kvs _ unique Hd Hw
               (unique_warnings_records order W)).
    destruct (network post_url _) as [r|e].
    + now rewrite show_outcome_data.
    + reflexivity.
  - apply dict_get_set_same.
  - apply keys_dict_set_old. eapply dict_get_keys, Hw.
  - intros k Hk. now apply dict_get_set_other.
Qed.

Lemma show_outcome_trace (r : response) (w : world) :
  exists new,
    trace (snd (show_outcome repr r w)) = trace w ++ new /\ posts new = [].
Proof.
  unfold show_outcome.
  destruct (status_code r =? 200)%Z.
  - cbv [bind lift response_json].
    destruct (json r) as [body|]; [|exists []; now rewrite app_nil_r].
    destruct (get_default "url" (PStr REPORT_URL) body) as [v|e].
    + eexists [_]. split; reflexivity.
    + exists []. now rewrite app_nil_r.
  - eexists [_; _]. cbv [bind print emit]; cbn [snd trace].
    rewrite <- app_assoc. split; reflexivity.
Qed.

(** Lines 124-138 send at most one request; it goes to the fixed
    address, only with consent, and carries [data] as the call leaves
    it. *)
Lemma submit_posts (c : bool) (w : world) :
  exists new,
    trace (snd (submit order network repr c w)) = trace w ++ new /\
    (posts new = [] \/
     c = true /\
     posts new = [(post_url, data (snd (submit order network repr c w)))]).
Proof.
  destruct c; [|exists []; cbn; rewrite app_nil_r; auto].
  destruct (data w) as [v|l|kvs] eqn:Hd;
    try (exists []; destruct w; cbn in Hd; subst;
         cbn; rewrite app_nil_r; now auto).
  destruct (dict_get "warnings" kvs) as [ws|] eqn:Hw;
    [|exists []; destruct w; cbn in Hd; subst;
      cbv [submit bind getitem get_data lift ret]; cbn [data];
      rewrite Hw; cbn; rewrite app_nil_r; now auto].
  destruct (unique_warnings order ws) as [u|e] eqn:Hu;
    [|exists []; destruct w; cbn in Hd; subst;
      cbv [submit bind getitem get_data lift ret]; cbn [data];
      rewrite Hw, Hu; cbn; rewrite app_nil_r; now auto].
  rewrite (submit_sends order network repr w kvs ws u Hd Hw Hu).
  destruct (network post_url _) as [r|e].
  - destruct (show_outcome_trace r (posted w (PDict (dict_set "warnings" u kvs))))
      as (new & Ht & Hp).
    exists (Post post_url (PDict (dict_set "warnings" u kvs)) :: new).
    rewrite Ht, show_outcome_data. cbn [posted trace data posts].
    rewrite <- app_assoc, Hp. auto.
  - eexists [_]. cbn [snd posted trace data posts]. auto.
Qed.

Lemma resolve_consent_trace (report : option bool) (w : world) :
  exists new,
    trace (snd (resolve_consent report w)) = trace w ++ new /\
    posts new = [].
Proof.
  destruct report as [b|].
  - exists []. cbn. now rewrite app_nil_r.
  - exists [Input question]. destruct w as [[|l lines] d tr]; auto.
Qed.

(** A call sends at most one request; it goes to the fixed address, only
    when the decision is yes, and carries [data] as the call leaves
    it. *)
Lemma upload_posts_at_most_once (report : option bool) (w : world) :
  exists new,
    trace (snd (upload report w)) = trace w ++ new /\
    (posts new = [] \/
     fst (resolve_consent report w) = Ok true /\
     posts new = [(post_url, data (snd (upload report w)))]).
Proof.
  rewrite upload_eq.
  destruct (resolve_consent_trace report w) as (new1 & Ht1 & Hp1).
  destruct (resolve_consent report w) as [[c|e] w1]; cbn [fst snd] in *.
  - destruct (submit_posts c w1) as (new2 & Ht2 & Hp2).
    exists (new1 ++ new2). rewrite Ht2, Ht1, <- app_assoc.
    split; [reflexivity|].
    rewrite posts_app, Hp1. cbn [app].
    destruct Hp2 as [Hp2|[-> Hp2]]; auto.
  - exists new1. auto.
Qed.

(** With consent, the warnings of a report made of records go out
    without two records of equal items. *)
Lemma posted_warnings_distinct_items
      (report : option bool) (w w1 : world)
      (kvs : dict pyval) (W : list record) :
  resolve_consent report w = (Ok true, w1) ->
  data w1 = PDict kvs ->
  dict_get "warnings" kvs = Some (PList (map record_value W)) ->
  Forall wf_dict W ->
  exists new,
    trace (snd (upload report w)) = trace w1 ++ new /\
    posts new =
    [(post_url,
      PDict (dict_set "warnings"
               (PList (map record_value (normalize order W))) kvs))] /\
    NoDupA teq (normalize order W).
Proof.
  intros Hc Hd Hw HW.
  rewrite upload_eq, Hc.
  rewrite (submit_sends order network repr w1 kvs _ _ Hd Hw
             (unique_warnings_records order W)).
  destruct (network post_url _) as [r|e].
  - destruct (show_outcome_trace r
                (posted w1 (PDict (dict_set "warnings"
                   (PList (map record_value (normalize order W))) kvs))))
      as (new & Ht & Hp).
    eexists (_ :: new). rewrite Ht. cbn [posted trace posts].
    rewrite <- app_assoc, Hp.
    split; [reflexivity|]. split; [reflexivity|].
    now apply normalize_NoDupA.
  - eexists [_]. cbn [snd posted trace posts].
    split; [reflexivity|]. split; [reflexivity|].
    now apply normalize_NoDupA.
Qed.

(** C8: on the report whose warnings are [{"a": 1, "b": 2}] and
    [{"b": 2, "a": 1}], a call with consent sends one request, to the
    fixed address, and the warnings in it are those two records again:
    two equal dictionaries go over the wire. *)
Theorem reordered_duplicate_is_posted :
  exists W',
    posts (trace (snd (upload (Some true) (start [] reordered_report)))) =
    [(post_url,
      PDict [("summary", PDict [("passed", PScalar (SInt 3))]);
             ("warnings", PList (map record_value W'))])] /\
    Permutation W' reordered_pair /\
    dict_eqb warning_ab warning_ba = true.
Proof.
  exists (normalize order reordered_pair).
  split; [|split; [|reflexivity]].
  - rewrite upload_eq. cbv [resolve_consent ret].
    rewrite (submit_sends order network repr (start [] reordered_report)
               _ _ _ eq_refl eq_refl
               (unique_warnings_records order reordered_pair)).
    destruct (network post_url _) as [r|e]; [|reflexivity].
    unfold show_outcome.
    destruct (status_code r =? 200)%Z; [|reflexivity].
    cbv [bind lift response_json].
    destruct (json r) as [body|]; [|reflexivity].
    destruct (get_default "url" (PStr REPORT_URL) body); reflexivity.
  - apply (reordered_pair_survives order).
Qed.

End Report.


(* ================================================================== *)
(** ** Runs on concrete inputs *)

Section Runs.
Import PyStr Py Runtests.

Lemma warnings_replaced_in_place_witness :
  data (snd (upload_json_report reverse_order (always accepted) no_repr
               (Some true) (start [] reordered_report)))
  = PDict [("summary", PDict [("passed", PScalar (SInt 3))]);
           ("warnings",
            PList [record_value warning_ba; record_value warning_ab])].
Proof.
  apply (warnings_replaced_in_place reverse_order (always accepted) no_repr
           (Some true) (start [] reordered_report) (start [] reordered_report)
           [("summary", PDict [("passed", PScalar (SInt 3))]);
            ("warnings", PList (map record_value reordered_pair))]
           reordered_pair);
    reflexivity.
Defined.

Lemma failure_shows_reason_witness :
  status_code unavailable <> 200%Z /\
  printed (trace (snd (upload_json_report insertion_order
                         (always unavailable) no_repr
                         (Some true) (start [] reordered_report))))
  = [failure_message; "Service Unavailable"].
Proof.
  split; [discriminate|].
  rewrite (proj1 (failure_shows_reason insertion_order (always unavailable)
                    no_repr (Some true)
                    (start [] reordered_report) (start [] reordered_report)
                    [("summary", PDict [("passed", PScalar (SInt 3))]);
                     ("warnings", PList (map record_value reordered_pair))]
                    (PList (map record_value reordered_pair))
                    (PList (map record_value reordered_pair))
                    unavailable
                    eq_refl eq_refl eq_refl eq_refl eq_refl
                    ltac:(discriminate))).
  reflexivity.
Defined.

(** C4, as stated, fails on the answer 503 "Service Unavailable": the
    call returns normally and prints the reason, but "503" is nowhere in
    what it prints. *)
Lemma failure_message_omits_status :
  let out := upload_json_report insertion_order (always unavailable) no_repr
               (Some true) (start [] reordered_report) in
  fst out = Ok tt /\
  console (trace (snd out)) =
    (failure_message ++ newline ++ "Service Unavailable" ++ newline)%string /\
  str_of_int (status_code unavailable) = "503" /\
  ~ (contains (str_of_int (status_code unavailable)) (console (trace (snd out)))
     = true /\
     contains (reason unavailable) (console (trace (snd out))) = true).
Proof.
  repeat split. intros [H _]. vm_compute in H. discriminate H.
Qed.

Lemma garbled_success_raises_witness :
  status_code garbled = 200%Z /\ json garbled = None /\
  upload_json_report insertion_order (always garbled) no_repr
    (Some true) (start [] reordered_report)
  = (Raise JSONDecodeError,
     posted (start [] reordered_report) reordered_report).
Proof.
  split; [reflexivity|]. split; [reflexivity|].
  apply (garbled_success_raises insertion_order (always garbled) no_repr
           (Some true)
           (start [] reordered_report) (start [] reordered_report)
           [("summary", PDict [("passed", PScalar (SInt 3))]);
            ("warnings", PList (map record_value reordered_pair))]
           (PList (map record_value reordered_pair))
           (PList (map record_value reordered_pair))
           garbled eq_refl eq_refl eq_refl eq_refl eq_refl eq_refl eq_refl).
Defined.

(** C5, as stated, fails on an answer 200 whose body does not parse:
    [JSONDecodeError] leaves the call and nothing is displayed, the host
    name included. *)
Lemma garbled_success_no_fallback :
  let out := upload_json_report insertion_order (always garbled) no_repr
               (Some true) (start [] reordered_report) in
  fst out = Raise JSONDecodeError /\
  console (trace (snd out)) = "" /\
  ~ (fst out = Ok tt /\
     contains REPORT_URL (console (trace (snd out))) = true).
Proof.
  repeat split. intros [H _]. discriminate H.
Qed.

Lemma success_shows_url_witness :
  status_code accepted = 200%Z /\
  printed (trace (snd (upload_json_report insertion_order
                         (always accepted) no_repr
                         (Some true) (start [] reordered_report))))
  = [success_message "https://tests.example/r/42"].
Proof.
  split; [reflexivity|].
  rewrite (proj1 (success_shows_url insertion_order (always accepted)
                    no_repr (Some true)
                    (start [] reordered_report) (start [] reordered_report)
                    [("summary", PDict [("passed", PScalar (SInt 3))]);
                     ("warnings", PList (map record_value reordered_pair))]
                    (PList (map record_value reordered_pair))
                    (PList (map record_value reordered_pair))
                    accepted
                    eq_refl eq_refl eq_refl eq_refl eq_refl
                    [("url", PStr "https://tests.example/r/42")]
                    eq_refl eq_refl)).
  reflexivity.
Defined.

End Runs.


(* ================================================================== *)
(** ** More on the normalizer *)

Section NormalizerMore.
Import Py Runtests.
Variable order : set_order.

Lemma set_add_length (x : item_tuple) (s : list item_tuple) :
  length (set_add x s) <= S (length s).
Proof.
  induction s as [|y s IH]; simpl; [lia|].
  destruct (tuple_eqb y x); simpl; lia.
Qed.

Lemma fold_set_add_length (l s : list item_tuple) :
  length (fold_left (fun s x => set_add x s) l s) <= length s + length l.
Proof.
  revert s; induction l as [|x l IH]; simpl; intros s; [lia|].
  specialize (IH (set_add x s)). pose proof (set_add_length x s). lia.
Qed.

Lemma set_add_fresh (x : item_tuple) (s : list item_tuple) :
  ~ InA teq x s -> set_add x s = s ++ [x].
Proof.
  induction s as [|y s IH]; simpl; intros H; [reflexivity|].
  destruct (tuple_eqb y x) eqn:E.
  - exfalso. apply H. constructor.
    apply (@Equivalence_Symmetric _ teq teq_equiv). exact E.
  - rewrite IH; [reflexivity|]. intros Hin. apply H. now constructor 2.
Qed.

Lemma fold_set_add_fresh (l s : list item_tuple) :
  NoDupA teq (s ++ l) ->
  fold_left (fun s x => set_add x s) l s = s ++ l.
Proof.
  revert s; induction l as [|x l IH]; simpl; intros s H.
  - now rewrite app_nil_r.
  - rewrite set_add_fresh.
    + rewrite IH; rewrite <- app_assoc; auto.
    + apply (NoDupA_swap teq_equiv) in H.
      inversion H as [|? ? Hn _]; subst.
      intros Hin. apply Hn. apply InA_app_iff. now left.
Qed.

(** A list without two equal tuples is its own set. *)
Lemma py_set_fresh (l : list item_tuple) : NoDupA teq l -> py_set l = l.
Proof. intros H. apply (fold_set_add_fresh l []), H. Qed.

(** X1: on a sequence of records the normalizer invents nothing: every
    record of its output is one of the input records. *)
Theorem normalizer_invents_nothing (W : list record) (r : record) :
  Forall wf_dict W -> In r (normalize order W) -> In r W.
Proof. apply normalize_sound. Qed.

(** X2: on a sequence of records the normalizer loses nothing: every
    input record has a record in the output with the same items in the
    same order, which is an equal dictionary. *)
Theorem normalizer_loses_nothing (W : list record) (r : record) :
  Forall wf_dict W -> In r W ->
  exists r', In r' (normalize order W) /\
             tuple_eqb r' r = true /\ dict_eqb r' r = true.
Proof.
  intros HW H.
  destruct (normalize_complete order W r HW H) as (r' & Hin & Heq).
  exists r'. split; [exact Hin|]. split; [exact Heq|].
  apply tuple_eqb_dict_eqb; [exact Heq|].
  pose proof (normalize_wf order W) as Hwf.
  rewrite Forall_forall in Hwf. now apply Hwf.
Qed.

(** X3: on a sequence of records, no two records of the normalizer's
    output have equal item tuples. *)
Theorem normalizer_output_distinct (W : list record) :
  Forall wf_dict W -> NoDupA teq (normalize order W).
Proof. apply normalize_NoDupA. Qed.

(** X4: the normalizer's output is never longer than its input. *)
Theorem normalizer_never_longer (W : list record) :
  length (normalize order W) <= length W.
Proof.
  unfold normalize. rewrite length_map.
  rewrite (Permutation_length (iter_order_perm order _)).
  pose proof (fold_set_add_length (map items W) []) as H.
  unfold py_set. rewrite length_map in H. simpl in H. exact H.
Qed.

(** X5: a sequence of records in which no two have equal item tuples
    comes out rearranged at most: the output is a permutation of the
    input. *)
Theorem normalizer_keeps_distinct_input (W : list record) :
  Forall wf_dict W -> NoDupA teq W -> Permutation (normalize order W) W.
Proof.
  intros HW HN. rewrite normalize_eq by assumption.
  rewrite (py_set_fresh W HN). apply iter_order_perm.
Qed.

End NormalizerMore.

Lemma normalizer_invents_nothing_witness :
  Forall Py.wf_dict Runtests.reordered_pair /\
  In Runtests.warning_ba Runtests.reordered_pair.
Proof.
  assert (HW : Forall Py.wf_dict Runtests.reordered_pair).
  { repeat constructor; simpl; intuition discriminate. }
  split; [exact HW|].
  apply (normalizer_invents_nothing Py.reverse_order
           Runtests.reordered_pair Runtests.warning_ba HW).
  left. reflexivity.
Defined.

Lemma normalizer_loses_nothing_witness :
  exists r', In r' (Runtests.normalize Py.reverse_order
                      (Runtests.reordered_pair ++ Runtests.reordered_pair)) /\
             Py.tuple_eqb r' Runtests.warning_ab = true /\
             Py.dict_eqb r' Runtests.warning_ab = true.
Proof.
  apply (normalizer_loses_nothing Py.reverse_order
           (Runtests.reordered_pair ++ Runtests.reordered_pair)
           Runtests.warning_ab).
  - repeat constructor; simpl; intuition discriminate.
  - left. reflexivity.
Defined.

Lemma normalizer_output_distinct_witness :
  NoDupA Py.teq (Runtests.normalize Py.reverse_order
                   (Runtests.reordered_pair ++ Runtests.reordered_pair)).
Proof.
  apply (normalizer_output_distinct Py.reverse_order).
  repeat constructor; simpl; intuition discriminate.
Defined.

Lemma normalizer_keeps_distinct_input_witness :
  Permutation (Runtests.normalize Py.reverse_order Runtests.reordered_pair)
              Runtests.reordered_pair.
Proof.
  apply (normalizer_keeps_distinct_input Py.reverse_order).
  - repeat constructor; simpl; intuition discriminate.
  - repeat constructor; intros H;
      repeat (apply InA_cons in H; destruct H as [H|H]; [discriminate H|]);
      apply InA_nil in H; exact H.
Defined.


(* ================================================================== *)
(** ** Errors and frames of the upload *)

Section UploadMore.
Import PyStr Py Runtests.
Variable order : set_order.
Variable network : string -> pyval -> result response.
Variable repr : pyval -> string.

#[local] Abbreviation upload := (upload_json_report order network repr).

Lemma dict_set_same {V : Type} (k : string) (v : V) (d : dict V) :
  dict_get k d = Some v -> dict_set k v d = d.
Proof.
  induction d as [|[k0 v0] d IH]; simpl; [discriminate|].
  destruct (String.eqb_spec k0 k) as [->|_].
  - intros [= ->]. reflexivity.
  - intros H. now rewrite IH.
Qed.

Lemma hashable_items_inv (d : pyval) (t : item_tuple) :
  hashable_items d = Ok t -> d = record_value t.
Proof.
  destruct d as [v|l|kvs]; simpl; try discriminate.
  unfold record_value. revert t.
  induction kvs as [|[k v] kvs IH]; simpl; intros t.
  - intros [= <-]. reflexivity.
  - destruct v as [s|l|d]; simpl; try discriminate.
    destruct (rmap _ kvs) as [t'|e]; simpl; [|discriminate].
    intros [= <-]. specialize (IH t' eq_refl).
    injection IH as ->. reflexivity.
Qed.

Lemma rmap_hashable_items_inv (ds : list pyval) (W : list record) :
  rmap hashable_items ds = Ok W -> ds = map record_value W.
Proof.
  revert W; induction ds as [|d ds IH]; intros W; cbn [rmap].
  - intros [= <-]. reflexivity.
  - destruct (hashable_items d) as [t|e] eqn:Ht; cbn [rbind]; [|discriminate].
    destruct (rmap hashable_items ds) as [W'|e]; cbn [rbind]; [|discriminate].
    intros [= <-]. cbn [map].
    now rewrite (hashable_items_inv d t Ht), (IH W' eq_refl).
Qed.

(** What the answer is made into adds prints only and reads no input. *)
Lemma show_outcome_frame (r : response) (w : world) :
  stdin (snd (show_outcome repr r w)) = stdin w /\
  exists new,
    trace (snd (show_outcome repr r w)) = trace w ++ new /\
    posts new = [] /\ prompts new = [].
Proof.
  unfold show_outcome.
  destruct (status_code r =? 200)%Z.
  - cbv [bind lift response_json].
    destruct (json r) as [body|];
      [|split; [reflexivity|exists []; now rewrite app_nil_r]].
    destruct (get_default "url" (PStr REPORT_URL) body) as [v|e].
    + split; [reflexivity|]. eexists [_]. repeat split.
    + split; [reflexivity|]. exists []. now rewrite app_nil_r.
  - split; [reflexivity|]. eexists [_; _].
    cbv [bind print emit]; cbn [snd trace].
    rewrite <- app_assoc. repeat split.
Qed.

(** Lines 124-138 by cases: either nothing happened to the state, or
    the report was rewritten and sent. *)
Lemma submit_cases (c : bool) (w : world) :
  snd (submit order network repr c w) = w \/
  exists kvs ws u new,
    c = true /\
    data w = PDict kvs /\
    dict_get "warnings" kvs = Some ws /\
    unique_warnings order ws = Ok u /\
    stdin (snd (submit order network repr c w)) = stdin w /\
    data (snd (submit order network repr c w))
    = PDict (dict_set "warnings" u kvs) /\
    trace (snd (submit order network repr c w))
    = trace w ++ Post post_url (PDict (dict_set "warnings" u kvs)) :: new /\
    posts new = [] /\ prompts new = [].
Proof.
  destruct c; [|now left].
  destruct (data w) as [v|l|kvs] eqn:Hd;
    try (left; destruct w; cbn in Hd; subst; reflexivity).
  destruct (dict_get "warnings" kvs) as [ws|] eqn:Hw;
    [|left; destruct w; cbn in Hd; subst;
      cbv [submit bind getitem get_data lift ret]; cbn [data];
      now rewrite Hw].
  destruct (unique_warnings order ws) as [u|e] eqn:Hu;
    [|left; destruct w; cbn in Hd; subst;
      cbv [submit bind getitem get_data lift ret]; cbn [data];
      now rewrite Hw, Hu].
  right. exists kvs, ws, u.
  rewrite (submit_sends order network repr w kvs ws u Hd Hw Hu).
  destruct (network post_url _) as [r|e].
  - destruct (show_outcome_frame r
                (posted w (PDict (dict_set "warnings" u kvs))))
      as (Hs & new & Ht & Hp & Hq).
    exists new. rewrite Hs, Ht, show_outcome_data.
    cbn [posted stdin data trace]. rewrite <- app_assoc.
    repeat split; auto.
  - exists []. cbn [snd posted stdin data trace]. repeat split; auto.
Qed.

(** X6: with consent, a call on something that is not a dict ([None],
    a list, a string, a number) raises [TypeError] right after the
    decision: nothing is sent or printed. *)
Theorem no_dict_raises_TypeError (report : option bool) (w w1 : world) :
  resolve_consent report w = (Ok true, w1) ->
  (forall kvs, data w1 <> PDict kvs) ->
  upload report w = (Raise TypeError, w1).
Proof.
  intros Hc Hd. rewrite upload_eq, Hc.
  destruct w1 as [lines d tr]; cbn in Hd.
  destruct d as [v|l|kvs]; try reflexivity.
  now destruct (Hd kvs).
Qed.

(** X7: with consent, a call on a dict that has no "warnings" key
    raises [KeyError] right after the decision: nothing is sent or
    printed and the dict is as it was. *)
Theorem no_warnings_raises_KeyError
        (report : option bool) (w w1 : world) (kvs : dict pyval) :
  resolve_consent report w = (Ok true, w1) ->
  data w1 = PDict kvs ->
  dict_get "warnings" kvs = None ->
  upload report w = (Raise KeyError, w1).
Proof.
  intros Hc Hd Hw. rewrite upload_eq, Hc.
  destruct w1 as [lines d tr]; cbn in Hd; subst d.
  cbv [submit bind getitem get_data lift ret]; cbn [data].
  now rewrite Hw.
Qed.

(** X8: line 126 succeeds on a list exactly when the list is made of
    records (dicts whose values are all scalars), and then gives the
    normalizer's output on them. *)
Theorem unique_warnings_ok_iff (ds : list pyval) (u : pyval) :
  unique_warnings order (PList ds) = Ok u <->
  exists W, ds = map record_value W /\
            u = PList (map record_value (normalize order W)).
Proof.
  split.
  - unfold unique_warnings; cbn [iterate rbind].
    destruct (rmap hashable_items ds) as [W|e] eqn:HW; cbn [rbind];
      [|discriminate].
    intros [= <-]. exists W. split; [|reflexivity].
    now apply rmap_hashable_items_inv.
  - intros (W & -> & ->). apply unique_warnings_records.
Qed.

(** X9: with consent, when line 126 raises (the warnings cannot be
    iterated, an element is not a dict, a value cannot be hashed), that
    exception leaves the call before anything is written or sent: the
    report is as it was. *)
Theorem bad_warnings_raise_early
        (report : option bool) (w w1 : world)
        (kvs : dict pyval) (ws : pyval) (e : exn) :
  resolve_consent report w = (Ok true, w1) ->
  data w1 = PDict kvs ->
  dict_get "warnings" kvs = Some ws ->
  unique_warnings order ws = Raise e ->
  upload report w = (Raise e, w1).
Proof.
  intros Hc Hd Hw Hu. rewrite upload_eq, Hc.
  destruct w1 as [lines d tr]; cbn in Hd; subst d.
  cbv [submit bind getitem get_data lift ret]; cbn [data].
  now rewrite Hw, Hu.
Qed.

(** X10: when [requests.post] raises, the exception leaves the call:
    the request is the last event, nothing is printed, and the caller's
    report already has its warnings replaced. *)
Theorem transport_error_propagates
        (report : option bool) (w w1 : world)
        (kvs : dict pyval) (ws u : pyval) (e : exn) :
  resolve_consent report w = (Ok true, w1) ->
  data w1 = PDict kvs ->
  dict_get "warnings" kvs = Some ws ->
  unique_warnings order ws = Ok u ->
  network post_url (PDict (dict_set "warnings" u kvs)) = Raise e ->
  upload report w
  = (Raise e, posted w1 (PDict (dict_set "warnings" u kvs))) /\
  printed (trace (snd (upload report w))) = printed (trace w1).
Proof.
  intros Hc Hd Hw Hu Hn.
  assert (E : upload report w
              = (Raise e, posted w1 (PDict (dict_set "warnings" u kvs)))).
  { rewrite upload_eq, Hc.
    rewrite (submit_sends order network repr w1 kvs ws u Hd Hw Hu).
    now rewrite Hn. }
  split; [exact E|]. rewrite E. cbn [snd posted trace].
  rewrite printed_app. cbn. apply app_nil_r.
Qed.

(** X11: when the status is 200 and the body parses to something that
    is not a dict (a list, a string, a number, null), [AttributeError]
    leaves the call after the request and nothing is printed. *)
Theorem body_without_get_raises
        (report : option bool) (w w1 : world)
        (kvs : dict pyval) (ws u : pyval) (r : response) (body : pyval) :
  resolve_consent report w = (Ok true, w1) ->
  data w1 = PDict kvs ->
  dict_get "warnings" kvs = Some ws ->
  unique_warnings order ws = Ok u ->
  network post_url (PDict (dict_set "warnings" u kvs)) = Ok r ->
  status_code r = 200%Z ->
  json r = Some body ->
  (forall m, body <> PDict m) ->
  upload report w
  = (Raise AttributeError, posted w1 (PDict (dict_set "warnings" u kvs))).
Proof.
  intros Hc Hd Hw Hu Hn Hs Hj Hb.
  rewrite (upload_answered order network repr report w w1 kvs ws u r
             Hc Hd Hw Hu Hn).
  unfold show_outcome. rewrite Hs.
  cbv [bind lift response_json]. rewrite Hj. cbn [Z.eqb Pos.eqb].
  destruct body as [v|l|m]; try reflexivity.
  now destruct (Hb m).
Qed.

(** X12: a call sends at most one request; when it sends one, the
    decision was yes, the address is the fixed one, and the body is the
    caller's report as the call leaves it. *)
Theorem at_most_one_request (report : option bool) (w : world) :
  exists new,
    trace (snd (upload report w)) = trace w ++ new /\
    length (posts new) <= 1 /\
    forall url body, In (url, body) (posts new) ->
      url = post_url /\
      fst (resolve_consent report w) = Ok true /\
      body = data (snd (upload report w)).
Proof.
  destruct (upload_posts_at_most_once order network repr report w)
    as (new & Ht & [Hp|[Hc Hp]]); exists new; rewrite Hp;
    (split; [exact Ht|]); (split; [simpl; lia|]).
  - intros url body [].
  - intros url body [[= <- <-]|[]]. auto.
Qed.

(** X13: a call never adds, removes or reorders the keys of the
    caller's dict and never changes the value of a key other than
    "warnings"; a [data] that is not a dict is left as it is. *)
Theorem report_keys_kept (report : option bool) (w : world) :
  (forall kvs, data w = PDict kvs ->
     exists kvs',
       data (snd (upload report w)) = PDict kvs' /\
       keys kvs' = keys kvs /\
       forall k, k <> "warnings" -> dict_get k kvs' = dict_get k kvs) /\
  ((forall kvs, data w <> PDict kvs) ->
   data (snd (upload report w)) = data w).
Proof.
  rewrite upload_eq.
  destruct (resolve_consent report w) as [[c|e] w1] eqn:Hc;
    destruct (resolve_consent_frame report w w1 _ Hc) as (Hd & _);
    cbn [snd].
  2:{ rewrite Hd. split; [|reflexivity].
      intros kvs ->. exists kvs. auto. }
  destruct (submit_cases c w1)
    as [->|(kvs & ws & u & new & _ & Hk & Hw & _ & _ & Hd' & _)].
  - rewrite Hd. split; [|reflexivity].
    intros kvs ->. exists kvs. auto.
  - rewrite Hd'. rewrite Hd in Hk. split.
    + intros kvs0 E. rewrite Hk in E. injection E as <-.
      exists (dict_set "warnings" u kvs). split; [reflexivity|]. split.
      * apply keys_dict_set_old. eapply dict_get_keys, Hw.
      * intros k Hne. now apply dict_get_set_other.
    + intros H. now destruct (H kvs).
Qed.

(** X14: with an explicit flag the whole call reads nothing from
    standard input and shows no prompt. *)
Theorem explicit_flag_never_prompts (b : bool) (w : world) :
  stdin (snd (upload (Some b) w)) = stdin w /\
  prompts (trace (snd (upload (Some b) w))) = prompts (trace w).
Proof.
  rewrite upload_eq. cbv [resolve_consent ret].
  destruct (submit_cases b w)
    as [->|(kvs & ws & u & new & _ & _ & _ & _ & Hs & _ & Ht & _ & Hq)].
  - auto.
  - rewrite Hs, Ht, prompts_app. cbn [prompts]. rewrite Hq.
    now rewrite app_nil_r.
Qed.

(** X15: with consent, a report whose warnings are the empty list is
    sent as it is, and the caller's dict is unchanged. *)
Theorem empty_warnings_sent_as_is
        (report : option bool) (w w1 : world) (kvs : dict pyval) :
  resolve_consent report w = (Ok true, w1) ->
  data w1 = PDict kvs ->
  dict_get "warnings" kvs = Some (PList []) ->
  data (snd (upload report w)) = PDict kvs /\
  posts (trace (snd (upload report w)))
  = posts (trace w1) ++ [(post_url, PDict kvs)].
Proof.
  intros Hc Hd Hw. rewrite upload_eq, Hc.
  assert (Hu : unique_warnings order (PList []) = Ok (PList [])).
  { pose proof (unique_warnings_records order []) as H.
    cbn [map] in H. now rewrite normalize_nil in H. }
  pose proof (submit_sends order network repr w1 kvs _ _ Hd Hw Hu) as S.
  cbv zeta in S. rewrite S. rewrite (dict_set_same _ _ _ Hw).
  destruct (network post_url (PDict kvs)) as [r|e].
  - destruct (show_outcome_frame r (posted w1 (PDict kvs)))
      as (_ & new & Ht & Hp & _).
    rewrite show_outcome_data, Ht. cbn [posted data trace].
    rewrite !posts_app, Hp. cbn [posts]. now rewrite app_nil_r.
  - cbn [snd posted data trace]. now rewrite posts_app.
Qed.

(** X16: with consent, the warnings of a report made of records go out
    in one request in which no two records have equal item tuples. *)
Theorem sent_warnings_distinct
        (report : option bool) (w w1 : world)
        (kvs : dict pyval) (W : list record) :
  resolve_consent report w = (Ok true, w1) ->
  data w1 = PDict kvs ->
  dict_get "warnings" kvs = Some (PList (map record_value W)) ->
  Forall wf_dict W ->
  exists W',
    posts (trace (snd (upload report w)))
    = posts (trace w1) ++
      [(post_url,
        PDict (dict_set "warnings" (PList (map record_value W')) kvs))] /\
    NoDupA teq W' /\
    (forall r, In r W' -> In r W).
Proof.
  intros Hc Hd Hw HW.
  destruct (posted_warnings_distinct_items order network repr
              report w w1 kvs W Hc Hd Hw HW) as (new & Ht & Hp & HN).
  exists (normalize order W). split; [|split; [exact HN|]].
  - rewrite Ht, posts_app, Hp. reflexivity.
  - intros r. now apply normalize_sound.
Qed.

End UploadMore.

Section UploadMoreRuns.
Import PyStr Py Runtests.

Lemma no_dict_raises_TypeError_witness :
  upload_json_report insertion_order (always accepted) no_repr
    None (start ["yes"] PNone)
  = (Raise TypeError,
     {| stdin := []; data := PNone; trace := [Input question] |}).
Proof.
  apply (no_dict_raises_TypeError insertion_order (always accepted) no_repr
           None (start ["yes"] PNone)).
  - reflexivity.
  - intros kvs H. discriminate H.
Defined.

Lemma no_warnings_raises_KeyError_witness :
  upload_json_report insertion_order (always accepted) no_repr
    (Some true) (start [] (PDict [("summary", PDict [])]))
  = (Raise KeyError, start [] (PDict [("summary", PDict [])])).
Proof.
  apply (no_warnings_raises_KeyError insertion_order (always accepted)
           no_repr (Some true) (start [] (PDict [("summary", PDict [])]))
           (start [] (PDict [("summary", PDict [])]))
           [("summary", PDict [])]);
    reflexivity.
Defined.

Lemma bad_warnings_raise_early_witness :
  unique_warnings insertion_order
    (PList [record_value warning_ab; PStr "DeprecationWarning"])
  = Raise AttributeError /\
  upload_json_report insertion_order (always accepted) no_repr
    (Some true)
    (start [] (PDict [("warnings",
                       PList [record_value warning_ab;
                              PStr "DeprecationWarning"])]))
  = (Raise AttributeError,
     start [] (PDict [("warnings",
                       PList [record_value warning_ab;
                              PStr "DeprecationWarning"])])).
Proof.
  split; [reflexivity|].
  apply (bad_warnings_raise_early insertion_order (always accepted) no_repr
           (Some true) _ _
           [("warnings",
             PList [record_value warning_ab; PStr "DeprecationWarning"])]
           (PList [record_value warning_ab; PStr "DeprecationWarning"]));
    reflexivity.
Defined.

Lemma transport_error_propagates_witness :
  upload_json_report insertion_order (fun _ _ => Raise ConnectionError)
    no_repr (Some true) (start [] reordered_report)
  = (Raise ConnectionError,
     posted (start [] reordered_report) reordered_report).
Proof.
  apply (transport_error_propagates insertion_order
           (fun _ _ => Raise ConnectionError) no_repr
           (Some true) (start [] reordered_report) (start [] reordered_report)
           [("summary", PDict [("passed", PScalar (SInt 3))]);
            ("warnings", PList (map record_value reordered_pair))]
           (PList (map record_value reordered_pair))
           (PList (map record_value reordered_pair))
           ConnectionError);
    reflexivity.
Defined.

Lemma body_without_get_raises_witness :
  upload_json_report insertion_order
    (always {| status_code := 200; reason := "OK";
               json := Some (PList []) |})
    no_repr (Some true) (start [] reordered_report)
  = (Raise AttributeError,
     posted (start [] reordered_report) reordered_report).
Proof.
  apply (body_without_get_raises insertion_order
           (always {| status_code := 200; reason := "OK";
                      json := Some (PList []) |})
           no_repr
           (Some true) (start [] reordered_report) (start [] reordered_report)
           [("summary", PDict [("passed", PScalar (SInt 3))]);
            ("warnings", PList (map record_value reordered_pair))]
           (PList (map record_value reordered_pair))
           (PList (map record_value reordered_pair))
           {| status_code := 200; reason := "OK"; json := Some (PList []) |}
           (PList []));
    try reflexivity.
  intros m H. discriminate H.
Defined.

Lemma empty_warnings_sent_as_is_witness :
  posts (trace (snd (upload_json_report reverse_order (always unavailable)
                       no_repr (Some true)
                       (start [] (PDict [("warnings", PList []);
                                         ("exitcode", PScalar (SInt 1))])))))
  = [(post_url, PDict [("warnings", PList []);
                       ("exitcode", PScalar (SInt 1))])].
Proof.
  exact (proj2 (empty_warnings_sent_as_is reverse_order (always unavailable)
                  no_repr (Some true)
                  (start [] (PDict [("warnings", PList []);
                                    ("exitcode", PScalar (SInt 1))]))
                  (start [] (PDict [("warnings", PList []);
                                    ("exitcode", PScalar (SInt 1))]))
                  [("warnings", PList []); ("exitcode", PScalar (SInt 1))]
                  eq_refl eq_refl eq_refl)).
Defined.

Lemma sent_warnings_distinct_witness :
  exists W',
    posts (trace (snd (upload_json_report reverse_order (always accepted)
                         no_repr (Some true)
                         (start [] (PDict [("warnings",
                            PList (map record_value
                                     [warning_ab; warning_ab]))])))))
    = [(post_url,
        PDict [("warnings", PList (map record_value W'))])] /\
    NoDupA teq W' /\
    (forall r, In r W' -> In r [warning_ab; warning_ab]).
Proof.
  assert (HW : Forall wf_dict [warning_ab; warning_ab]).
  { repeat constructor; simpl; intuition discriminate. }
  exact (sent_warnings_distinct reverse_order (always accepted) no_repr
           (Some true)
           (start [] (PDict [("warnings",
                              PList (map record_value
                                       [warning_ab; warning_ab]))]))
           (start [] (PDict [("warnings",
                              PList (map record_value
                                       [warning_ab; warning_ab]))]))
           [("warnings", PList (map record_value [warning_ab; warning_ab]))]
           [warning_ab; warning_ab]
           eq_refl eq_refl eq_refl HW).
Defined.

End UploadMoreRuns.


(* ================================================================== *)
(** ** The requirement check *)

Section Requirements.
Import PyStr Py Runtests Main.
Variable PYTEST_REQUIRES : list string.
Variable get_distribution : string -> lookup.

#[local] Abbreviation ensure :=
  (_ensure_tests_requirements_installed PYTEST_REQUIRES get_distribution).
#[local] Abbreviation message := (requirements_message PYTEST_REQUIRES).

(** X17: the name looked up for a requirement is the requirement up to
    its first delimiter: it has no delimiter in it, and what follows it
    in the requirement is nothing or starts with a delimiter. *)
Theorem pkg_name_split (package_req : string) :
  exists rest,
    package_req = (pkg_name package_req ++ rest)%string /\
    Forall (fun c => is_delimiter c = false)
           (list_ascii_of_string (pkg_name package_req)) /\
    (rest = EmptyString \/
     exists c rest', rest = String c rest' /\ is_delimiter c = true).
Proof.
  induction package_req as [|c s IH]; cbn [pkg_name].
  - exists EmptyString. repeat split; auto.
  - destruct (is_delimiter c) eqn:E.
    + exists (String c s). repeat split; [constructor|].
      right. now exists c, s.
    + destruct IH as (rest & Hs & Hf & Hr).
      exists rest. split; [|split; [|exact Hr]].
      * simpl. now rewrite <- Hs.
      * simpl. now constructor.
Qed.

(** X18: a requirement is looked up whole exactly when it has no
    delimiter in it. *)
Theorem pkg_name_whole_iff (package_req : string) :
  pkg_name package_req = package_req <->
  Forall (fun c => is_delimiter c = false)
         (list_ascii_of_string package_req).
Proof.
  induction package_req as [|c s IH]; cbn [pkg_name].
  - split; [constructor | reflexivity].
  - simpl. destruct (is_delimiter c) eqn:E.
    + split; [discriminate|].
      intros H. inversion H; subst. congruence.
    + split.
      * intros [= H]. constructor; [exact E | now apply IH].
      * intros H. inversion H; subst. f_equal. now apply IH.
Qed.

Lemma check_requirements_ok_iff (reqs : list string) :
  check_requirements PYTEST_REQUIRES get_distribution reqs = None <->
  Forall (fun req => get_distribution (pkg_name req) = Found) reqs.
Proof.
  induction reqs as [|req reqs IH]; cbn [check_requirements].
  - split; [constructor | reflexivity].
  - destruct (get_distribution (pkg_name req)) eqn:E.
    + rewrite IH. split; [now constructor|].
      intros H. now inversion H.
    + split; [discriminate|]. intros H. inversion H; congruence.
    + split; [discriminate|]. intros H. inversion H; congruence.
Qed.

Lemma check_requirements_first (pre post : list string) (req : string) :
  Forall (fun r => get_distribution (pkg_name r) = Found) pre ->
  check_requirements PYTEST_REQUIRES get_distribution (pre ++ req :: post) =
  match get_distribution (pkg_name req) with
  | Found => check_requirements PYTEST_REQUIRES get_distribution post
  | NotFound => Some (ImportError message)
  | OtherError => Some LookupRaised
  end.
Proof.
  induction pre as [|r pre IH]; intros H; [reflexivity|].
  inversion H as [|? ? Hr Hpre]; subst.
  cbn [app check_requirements]. rewrite Hr. now apply IH.
Qed.

Lemma concat_contains (sep : string) (l : list string) (r : string) :
  In r l -> substring_of r (String.concat sep l).
Proof.
  induction l as [|h t IH]; [intros []|].
  intros [->|H].
  - destruct t as [|h' t'].
    + exists EmptyString, EmptyString. simpl.
      clear. induction r as [|c r IH]; simpl; congruence.
    + exists EmptyString, (sep ++ String.concat sep (h' :: t'))%string.
      reflexivity.
  - destruct t as [|h' t']; [destruct H|].
    destruct (IH H) as (a & b & E).
    exists (h ++ sep ++ a)%string, b.
    cbn [String.concat]. cbn [String.concat] in E. rewrite E.
    now rewrite !append_assoc.
Qed.

(** X19: the check passes exactly when the name of every requirement is
    an installed distribution. *)
Theorem requirements_ok_iff :
  ensure = None <->
  Forall (fun req => get_distribution (pkg_name req) = Found)
         PYTEST_REQUIRES.
Proof. apply check_requirements_ok_iff. Qed.

Lemma first_missing_raises
      (pre post : list string) (req : string) :
  PYTEST_REQUIRES = pre ++ req :: post ->
  Forall (fun r => get_distribution (pkg_name r) = Found) pre ->
  get_distribution (pkg_name req) = NotFound ->
  ensure = Some (ImportError message).
Proof.
  intros Hl Hpre Hreq.
  unfold _ensure_tests_requirements_installed.
  rewrite Hl at 2. rewrite (check_requirements_first pre post req Hpre).
  now rewrite Hreq.
Qed.

(** X20: the first requirement whose name is not found ends the check
    with an [ImportError], whatever comes after it; the message of the
    error names every requirement, found or not. *)
Theorem missing_requirement_raises (pre post : list string) (req : string) :
  PYTEST_REQUIRES = pre ++ req :: post ->
  Forall (fun r => get_distribution (pkg_name r) = Found) pre ->
  get_distribution (pkg_name req) = NotFound ->
  ensure = Some (ImportError message) /\
  forall r, In r PYTEST_REQUIRES -> contains r message = true.
Proof.
  intros Hl Hpre Hreq. split.
  - now apply (first_missing_raises pre post req).
  - intros r Hr. apply contains_spec.
    destruct (concat_contains " " PYTEST_REQUIRES r Hr) as (a & b & E).
    unfold requirements_message. rewrite E.
    eexists _, b. rewrite <- !append_assoc. reflexivity.
Qed.

End Requirements.

Lemma missing_requirement_raises_witness :
  Main._ensure_tests_requirements_installed
    Main.sample_requires Main.only_pytest
  = Some (Main.ImportError (Main.requirements_message Main.sample_requires))
  /\
  PyStr.contains "pytest-cov !=2.0"
    (Main.requirements_message Main.sample_requires) = true.
Proof.
  destruct (missing_requirement_raises Main.sample_requires Main.only_pytest
              ["pytest>=5.0"] ["pytest-cov !=2.0"] "pytest-json-report"
              eq_refl
              ltac:(repeat constructor)
              eq_refl) as [H1 H2].
  split; [exact H1|].
  apply H2. right. right. left. reflexivity.
Defined.


(* ================================================================== *)
(** ** The entry point *)

Section EntryPoint.
Import PyStr Py Runtests Main.
Variable PYTEST_REQUIRES : list string.
Variable get_distribution : string -> lookup.
Variable doc : string.
Variable base_obspy_path : string.
Variable pytest_main : list string -> string -> pytest_result.
Variable order : set_order.
Variable network : string -> pyval -> result response.
Variable repr : pyval -> string.

#[local] Abbreviation ensure :=
  (_ensure_tests_requirements_installed PYTEST_REQUIRES get_distribution).
#[local] Abbreviation run_main :=
  (main PYTEST_REQUIRES get_distribution doc base_obspy_path pytest_main
        order network repr).
#[local] Abbreviation upload := (upload_json_report order network repr).

Lemma in_argv_iff (flag : string) (args : list string) :
  in_argv flag args = true <-> In flag args.
Proof.
  unfold in_argv. rewrite existsb_exists. split.
  - intros (x & Hx & E). apply String.eqb_eq in E. now subst.
  - intros H. exists flag. split; [exact H | apply String.eqb_refl].
Qed.

Lemma in_argv_false_iff (flag : string) (args : list string) :
  in_argv flag args = false <-> ~ In flag args.
Proof.
  rewrite <- in_argv_iff. destruct (in_argv flag args); split;
    congruence.
Qed.

Lemma report_flag_spec (args : list string) :
  (report_flag args = Some true <-> In "--report" args) /\
  (report_flag args = Some false <->
   In "--no-report" args /\ ~ In "--report" args) /\
  (report_flag args = None <->
   ~ In "--report" args /\ ~ In "--no-report" args).
Proof.
  unfold report_flag.
  rewrite <- !in_argv_false_iff, <- !in_argv_iff.
  destruct (in_argv "--report" args), (in_argv "--no-report" args);
    repeat split; intros; try congruence; intuition congruence.
Qed.

(** X21: the flag given to the upload is yes when [--report] is among
    the arguments, no when [--no-report] is and [--report] is not, and
    absent when neither is; the arguments are compared whole. *)
Theorem report_flag_cases (args : list string) :
  (report_flag args = Some true <-> In "--report" args) /\
  (report_flag args = Some false <->
   In "--no-report" args /\ ~ In "--report" args) /\
  (report_flag args = None <->
   ~ In "--report" args /\ ~ In "--no-report" args).
Proof. apply report_flag_spec. Qed.

(** X22: the arguments pytest gets are the caller's arguments, in
    order, followed by [--json-report-file=none] when no argument of
    the caller has [--json-report-file] in it, followed by
    [--tb=native]; so one of them always has [--json-report-file] in
    it. *)
Theorem pytest_argv_shape (args : list string) :
  (exists extra,
     pytest_argv args = args ++ extra ++ ["--tb=native"] /\
     (extra = [] /\
      (exists arg, In arg args /\ contains "--json-report-file" arg = true)
      \/
      extra = ["--json-report-file=none"] /\
      (forall arg, In arg args ->
                   contains "--json-report-file" arg = false))) /\
  exists arg, In arg (pytest_argv args) /\
              contains "--json-report-file" arg = true.
Proof.
  unfold pytest_argv.
  destruct (forallb _ args) eqn:E.
  - assert (H : forall arg, In arg args ->
                  contains "--json-report-file" arg = false).
    { intros arg Hin. rewrite forallb_forall in E.
      specialize (E arg Hin). now apply negb_true_iff in E. }
    split.
    + exists ["--json-report-file=none"].
      rewrite <- app_assoc. split; [reflexivity|]. right. auto.
    + exists "--json-report-file=none". split; [|reflexivity].
      apply in_or_app. left. apply in_or_app. right. now left.
  - assert (H : exists arg, In arg args /\
                  contains "--json-report-file" arg = true).
    { apply not_true_iff_false in E.
      destruct (existsb (contains "--json-report-file") args) eqn:X.
      - apply existsb_exists in X. exact X.
      - exfalso. apply E. apply forallb_forall. intros arg Hin.
        apply negb_true_iff.
        destruct (contains "--json-report-file" arg) eqn:C; [|reflexivity].
        assert (Y : existsb (contains "--json-report-file") args = true)
          by (apply existsb_exists; eauto).
        congruence. }
    split.
    + exists []. split; [reflexivity|]. left. auto.
    + destruct H as (arg & Hin & Hc). exists arg. split; [|exact Hc].
      apply in_or_app. now left.
Qed.

(** X23: when the name of a requirement is not found, and those before
    it are, [main] ends with the [ImportError] before anything else:
    whatever the arguments, [--help] included, nothing is printed,
    pytest is not run and nothing is uploaded. *)
Theorem main_missing_requirement
        (pre post : list string) (req : string) (p : process) :
  PYTEST_REQUIRES = pre ++ req :: post ->
  Forall (fun r => get_distribution (pkg_name r) = Found) pre ->
  get_distribution (pkg_name req) = NotFound ->
  run_main p = (ImportError (requirements_message PYTEST_REQUIRES), p).
Proof.
  intros Hl Hpre Hreq. unfold main.
  now rewrite (first_missing_raises
                 PYTEST_REQUIRES get_distribution pre post req Hl Hpre Hreq).
Qed.

(** X24: with the requirements in place, [-h] or [--help] makes [main]
    print the docstring and leave with status 0: pytest is not run,
    nothing is read or uploaded even with [--report], and the arguments
    and the working directory are as they were. *)
Theorem main_help (p : process) :
  Forall (fun r => get_distribution (pkg_name r) = Found) PYTEST_REQUIRES ->
  In "-h" (argv p) \/ In "--help" (argv p) ->
  run_main p =
  (SystemExit 0,
   {| argv := argv p; cwd := cwd p; sessions := sessions p;
      input_lines := input_lines p;
      events := events p ++ [Print doc] |}).
Proof.
  intros Hreq Hh. unfold main.
  assert (He : ensure = None) by now apply check_requirements_ok_iff.
  rewrite He.
  assert (E : wants_help (argv p) = true).
  { unfold wants_help. apply orb_true_iff.
    destruct Hh as [H|H]; [left|right]; now apply in_argv_iff. }
  now rewrite E.
Qed.

(** How [main] ends once the requirements are in place and no help is
    asked for. *)
Lemma main_runs_pytest (p : process) :
  ensure = None ->
  wants_help (argv p) = false ->
  let args := pytest_argv (argv p) in
  let after :=
    {| argv := args; cwd := cwd p;
       sessions := sessions p ++ [(args, base_obspy_path)];
       input_lines := input_lines p; events := events p |} in
  run_main p =
  match pytest_main args base_obspy_path with
  | Crashed _ => (PytestRaised, after)
  | Finished status plugin_report _ =>
      let out := upload (report_flag (argv p))
                   {| stdin := input_lines p;
                      data := plugin_report;
                      trace := events p |} in
      (match fst out with
       | Ok _ => SystemExit status
       | Raise e => Uncaught e
       end,
       {| argv := args; cwd := cwd p;
          sessions := sessions p ++ [(args, base_obspy_path)];
          input_lines := stdin (snd out);
          events := trace (snd out) |})
  end.
Proof.
  intros He Hh args after. unfold main. rewrite He, Hh.
  cbv [run_pytest chdir set_argv call_upload].
  cbn [argv cwd sessions input_lines events].
  fold args.
  destruct (pytest_main args base_obspy_path) as [status rep c|c];
    [|reflexivity].
  cbn [cwd_after_pytest].
  destruct (upload _ _) as [[[]|e] w']; reflexivity.
Qed.

(** X25: however [main] ends, the working directory is the one it
    started in, whatever pytest did to it. *)
Theorem main_restores_cwd (p : process) :
  cwd (snd (run_main p)) = cwd p.
Proof.
  destruct ensure as [t|] eqn:He.
  - unfold main. now rewrite He.
  - destruct (wants_help (argv p)) eqn:Hh.
    + unfold main. now rewrite He, Hh.
    + rewrite (main_runs_pytest p He Hh). cbv zeta.
      destruct (pytest_main _ _); reflexivity.
Qed.

(** X26: [main] runs pytest at most once; when it does, the
    requirements are in place and no help was asked for, pytest runs in
    the directory of the package on the arguments of X22, and those are
    the arguments [sys.argv] is left with. *)
Theorem main_one_session (p : process) :
  sessions (snd (run_main p)) = sessions p /\ argv (snd (run_main p)) = argv p
  \/
  ensure = None /\
  wants_help (argv p) = false /\
  sessions (snd (run_main p))
  = sessions p ++ [(pytest_argv (argv p), base_obspy_path)] /\
  argv (snd (run_main p)) = pytest_argv (argv p).
Proof.
  destruct ensure as [t|] eqn:He.
  - left. unfold main. now rewrite He.
  - destruct (wants_help (argv p)) eqn:Hh.
    + left. unfold main. now rewrite He, Hh.
    + right. rewrite (main_runs_pytest p He Hh). cbv zeta.
      destruct (pytest_main _ _); auto.
Qed.

(** X27: with [--no-report] and without [--report], once pytest has
    returned a status, [main] leaves with that status: standard input
    is not read and nothing is printed or sent, whatever the report
    is. *)
Theorem main_no_report (p : process)
        (status : Z) (plugin_report : pyval) (dir : string) :
  Forall (fun r => get_distribution (pkg_name r) = Found) PYTEST_REQUIRES ->
  ~ In "-h" (argv p) -> ~ In "--help" (argv p) ->
  In "--no-report" (argv p) -> ~ In "--report" (argv p) ->
  pytest_main (pytest_argv (argv p)) base_obspy_path
  = Finished status plugin_report dir ->
  run_main p =
  (SystemExit status,
   {| argv := pytest_argv (argv p); cwd := cwd p;
      sessions := sessions p ++ [(pytest_argv (argv p), base_obspy_path)];
      input_lines := input_lines p; events := events p |}).
Proof.
  intros Hreq Hh1 Hh2 Hno Hyes Hpy.
  assert (He : ensure = None) by now apply check_requirements_ok_iff.
  assert (Hh : wants_help (argv p) = false).
  { unfold wants_help. apply orb_false_iff.
    split; now apply in_argv_false_iff. }
  rewrite (main_runs_pytest p He Hh). cbv zeta. rewrite Hpy.
  rewrite (proj2 (proj1 (proj2 (report_flag_spec (argv p))))
             (conj Hno Hyes)).
  reflexivity.
Qed.

(** X28: with neither flag and nothing to read on standard input, once
    pytest has returned a status, [main] shows the question and ends
    with [EOFError] instead of leaving with the status; nothing is
    sent. *)
Theorem main_closed_stdin (p : process)
        (status : Z) (plugin_report : pyval) (dir : string) :
  Forall (fun r => get_distribution (pkg_name r) = Found) PYTEST_REQUIRES ->
  ~ In "-h" (argv p) -> ~ In "--help" (argv p) ->
  ~ In "--report" (argv p) -> ~ In "--no-report" (argv p) ->
  input_lines p = [] ->
  pytest_main (pytest_argv (argv p)) base_obspy_path
  = Finished status plugin_report dir ->
  run_main p =
  (Uncaught EOFError,
   {| argv := pytest_argv (argv p); cwd := cwd p;
      sessions := sessions p ++ [(pytest_argv (argv p), base_obspy_path)];
      input_lines := []; events := events p ++ [Input question] |}).
Proof.
  intros Hreq Hh1 Hh2 Hyes Hno Hin Hpy.
  assert (He : ensure = None) by now apply check_requirements_ok_iff.
  assert (Hh : wants_help (argv p) = false).
  { unfold wants_help. apply orb_false_iff.
    split; now apply in_argv_false_iff. }
  rewrite (main_runs_pytest p He Hh). cbv zeta. rewrite Hpy.
  rewrite (proj2 (proj2 (proj2 (report_flag_spec (argv p))))
             (conj Hyes Hno)).
  rewrite Hin. reflexivity.
Qed.

(** X29: once pytest has returned a status, [main] leaves with that
    status exactly when the upload returns; an exception of the upload
    ends [main] in its place. *)
Theorem main_status_iff_upload_returns (p : process)
        (status : Z) (plugin_report : pyval) (dir : string) :
  Forall (fun r => get_distribution (pkg_name r) = Found) PYTEST_REQUIRES ->
  ~ In "-h" (argv p) -> ~ In "--help" (argv p) ->
  pytest_main (pytest_argv (argv p)) base_obspy_path
  = Finished status plugin_report dir ->
  let out := upload (report_flag (argv p))
               {| stdin := input_lines p;
                  data := plugin_report;
                  trace := events p |} in
  (fst (run_main p) = SystemExit status <-> fst out = Ok tt) /\
  (forall e, fst (run_main p) = Uncaught e <-> fst out = Raise e) /\
  events (snd (run_main p)) = trace (snd out).
Proof.
  intros Hreq Hh1 Hh2 Hpy out.
  assert (He : ensure = None) by now apply check_requirements_ok_iff.
  assert (Hh : wants_help (argv p) = false).
  { unfold wants_help. apply orb_false_iff.
    split; now apply in_argv_false_iff. }
  rewrite (main_runs_pytest p He Hh). cbv zeta. rewrite Hpy.
  fold out. cbn [fst snd events].
  destruct (fst out) as [[]|e0]; repeat split; intros; try congruence.
Qed.

End EntryPoint.

Section EntryPointRuns.
Import PyStr Py Runtests Main.

#[local] Abbreviation sample_main :=
  (fun installed pytest server =>
     main sample_requires installed "usage" "/site-packages/obspy" pytest
          insertion_order server no_repr).

Lemma main_missing_requirement_witness :
  sample_main only_pytest pytest_passes (always accepted)
    (launch ["obspy-runtests"; "--help"] "/home/user" [])
  = (ImportError (requirements_message sample_requires),
     launch ["obspy-runtests"; "--help"] "/home/user" []).
Proof.
  apply (main_missing_requirement sample_requires only_pytest "usage"
           "/site-packages/obspy" pytest_passes insertion_order
           (always accepted) no_repr
           ["pytest>=5.0"] ["pytest-cov !=2.0"] "pytest-json-report").
  - reflexivity.
  - repeat constructor.
  - reflexivity.
Defined.

Lemma main_help_witness :
  sample_main all_installed pytest_passes (always accepted)
    (launch ["obspy-runtests"; "--report"; "-h"] "/home/user" [])
  = (SystemExit 0,
     {| argv := ["obspy-runtests"; "--report"; "-h"]; cwd := "/home/user";
        sessions := []; input_lines := [];
        events := [Print "usage"] |}).
Proof.
  apply (main_help sample_requires all_installed "usage"
           "/site-packages/obspy" pytest_passes insertion_order
           (always accepted) no_repr
           (launch ["obspy-runtests"; "--report"; "-h"] "/home/user" [])).
  - repeat constructor.
  - left. simpl. auto.
Defined.

Lemma main_no_report_witness :
  sample_main all_installed pytest_passes (always accepted)
    (launch ["obspy-runtests"; "--no-report"] "/home/user" ["y"])
  = (SystemExit 0,
     {| argv := ["obspy-runtests"; "--no-report";
                 "--json-report-file=none"; "--tb=native"];
        cwd := "/home/user";
        sessions := [(["obspy-runtests"; "--no-report";
                       "--json-report-file=none"; "--tb=native"],
                      "/site-packages/obspy")];
        input_lines := ["y"]; events := [] |}).
Proof.
  apply (main_no_report sample_requires all_installed "usage"
           "/site-packages/obspy" pytest_passes insertion_order
           (always accepted) no_repr
           (launch ["obspy-runtests"; "--no-report"] "/home/user" ["y"])
           0%Z reordered_report "/tmp");
    try (intros H; simpl in H; intuition discriminate).
  - repeat constructor.
  - simpl. auto.
  - reflexivity.
Defined.

Lemma main_closed_stdin_witness :
  sample_main all_installed pytest_passes (always accepted)
    (launch ["obspy-runtests"; "io/mseed"] "/home/user" [])
  = (Uncaught EOFError,
     {| argv := ["obspy-runtests"; "io/mseed";
                 "--json-report-file=none"; "--tb=native"];
        cwd := "/home/user";
        sessions := [(["obspy-runtests"; "io/mseed";
                       "--json-report-file=none"; "--tb=native"],
                      "/site-packages/obspy")];
        input_lines := []; events := [Input question] |}).
Proof.
  apply (main_closed_stdin sample_requires all_installed "usage"
           "/site-packages/obspy" pytest_passes insertion_order
           (always accepted) no_repr
           (launch ["obspy-runtests"; "io/mseed"] "/home/user" [])
           0%Z reordered_report "/tmp");
    try (intros H; simpl in H; intuition discriminate).
  - repeat constructor.
  - reflexivity.
  - reflexivity.
Defined.

Lemma main_status_iff_upload_returns_witness :
  fst (sample_main all_installed pytest_passes (always garbled)
         (launch ["obspy-runtests"; "--report"] "/home/user" []))
  = Uncaught JSONDecodeError.
Proof.
  assert (Hh1 : ~ In "-h" ["obspy-runtests"; "--report"])
    by (intros H; simpl in H; intuition discriminate).
  assert (Hh2 : ~ In "--help" ["obspy-runtests"; "--report"])
    by (intros H; simpl in H; intuition discriminate).
  assert (Hreq : Forall (fun r => all_installed (pkg_name r) = Found)
                        sample_requires)
    by (repeat constructor).
  destruct (main_status_iff_upload_returns sample_requires all_installed
              "usage" "/site-packages/obspy" pytest_passes insertion_order
              (always garbled) no_repr
              (launch ["obspy-runtests"; "--report"] "/home/user" [])
              0%Z reordered_report "/tmp" Hreq Hh1 Hh2 eq_refl)
    as (_ & H & _).
  apply H. reflexivity.
Defined.

End EntryPointRuns.


(* ================================================================== *)
(** ** The report after the call, and bodies that are not dicts *)

Section Revisited.
Import PyStr Py Runtests.
Variable order : set_order.
Variable network : string -> pyval -> result response.
Variable repr : pyval -> string.

(** C9: on the caller's report whose warnings are [{"a": 1, "b": 2}]
    and [{"b": 2, "a": 1}], a call with consent leaves "summary" as it
    was and rebinds "warnings" in place, whatever the server does, but
    to a list that still holds both records: the new value has two
    equal dictionaries in it and is not deduplicated. *)
Theorem reordered_duplicate_stays_in_report :
  exists W',
    data (snd (upload_json_report order network repr
                 (Some true) (start [] reordered_report)))
    = PDict [("summary", PDict [("passed", PScalar (SInt 3))]);
             ("warnings", PList (map record_value W'))] /\
    Permutation W' reordered_pair /\
    dict_eqb warning_ab warning_ba = true /\
    length (filter (dict_eqb warning_ab) W') = 2.
Proof.
  exists (normalize order reordered_pair).
  pose proof (reordered_pair_survives order) as P.
  split; [|split; [exact P|split; [reflexivity|]]].
  - rewrite upload_eq. cbv [resolve_consent ret].
    rewrite (submit_sends order network repr (start [] reordered_report)
               _ _ _ eq_refl eq_refl
               (unique_warnings_records order reordered_pair)).
    destruct (network post_url _) as [r|e]; [|reflexivity].
    now rewrite show_outcome_data.
  - apply Permutation_sym, Permutation_length_2_inv in P.
    destruct P as [-> | ->]; reflexivity.
Qed.

End Revisited.

(** C6, as stated, fails on an answer 200 whose body parses to a JSON
    array: the array has no "url" field, yet no message with the host
    name is shown; [AttributeError] leaves the call and nothing is
    printed. *)
Lemma array_body_shows_nothing :
  let r := {| Runtests.status_code := 200; Runtests.reason := "OK";
              Runtests.json := Some (Py.PList [Py.PStr "received"]) |} in
  let out := Runtests.upload_json_report Py.insertion_order
               (Runtests.always r) Runtests.no_repr
               (Some true) (Runtests.start [] Runtests.reordered_report) in
  Runtests.status_code r = 200%Z /\
  fst out = Py.Raise Py.AttributeError /\
  Runtests.console (Runtests.trace (snd out)) = "" /\
  ~ (fst out = Py.Ok tt /\
     PyStr.contains Runtests.REPORT_URL
       (Runtests.console (Runtests.trace (snd out))) = true).
Proof.
  repeat split. intros [H _]. discriminate H.
Qed.
